(** * Portfolio Builder: a shallow embedding of [backend.py]

    The two public procedures of [backend.py], [generate_portfolio] and
    [deploy_to_github], and their helpers [_strip_markdown_fences],
    [_unique_repo_name] and [_push_file], embedded as Rocq functions.

    - A Python [str] is a list of Unicode code points.
    - A [set] of names is a [gset]; the [user_data] dict is a [gmap] from
      strings to values. [generate_portfolio_any] takes values of any type,
      as the annotation [dict[str, Any]] allows; [generate_portfolio] is the
      same function on dictionaries whose values are strings, as the
      docstring declares them.
    - Remote calls (Gemini, GitHub), the clock, [time.sleep] and [print]
      are the operations of a small monad [py]: a computation reads the
      answers of the outside world from a [world] record, logs every
      call it performs, and either returns a value or raises. *)

From stdpp Require Import gmap strings list pretty.
From Stdlib Require Import ZArith NArith QArith Ascii String.

Open Scope Z_scope.

(** ** Python strings *)

Module PyStr.

Definition char := N.
Definition str := list char.

(** An ASCII literal of the source, one code point per character. *)
Definition lit (s : string) : str :=
  map N_of_ascii (list_ascii_of_string s).

Definition nl : str := [10%N].

(** [str.isspace] on one code point, the set [Py_UNICODE_ISSPACE] accepts;
    the [\s] class of [re] on [str] patterns is the same set. *)
Definition is_space (c : char) : bool :=
  ((9 <=? c) && (c <=? 13) || (28 <=? c) && (c <=? 32)
   || (c =? 133) || (c =? 160) || (c =? 5760)
   || (8192 <=? c) && (c <=? 8202)
   || (c =? 8232) || (c =? 8233) || (c =? 8239) || (c =? 8287)
   || (c =? 12288))%N.

(** The class [[a-zA-Z]]. *)
Definition is_ascii_letter (c : char) : bool :=
  ((65 <=? c) && (c <=? 90) || (97 <=? c) && (c <=? 122))%N.

(** Line boundaries of [str.splitlines]. *)
Definition is_linebreak (c : char) : bool :=
  ((10 <=? c) && (c <=? 13) || (28 <=? c) && (c <=? 30)
   || (c =? 133) || (c =? 8232) || (c =? 8233))%N.

Fixpoint lstrip (s : str) : str :=
  match s with
  | c :: s' => if is_space c then lstrip s' else s
  | [] => []
  end.

Definition rstrip (s : str) : str := rev (lstrip (rev s)).

(** [s.strip()] *)
Definition strip (s : str) : str := rstrip (lstrip s).

(** Truth value of a string: the empty string is falsy. *)
Definition truthy (s : str) : bool :=
  match s with [] => false | _ :: _ => true end.

(** [a or b] on strings. *)
Definition or_else (a b : str) : str := if truthy a then a else b.

(** [sep.join(parts)] *)
Fixpoint join (sep : str) (parts : list str) : str :=
  match parts with
  | [] => []
  | [p] => p
  | p :: ps => p ++ sep ++ join sep ps
  end.

(** [s.splitlines()]: [cur] is the line being read.  A line ends at a
    line boundary, ["\r\n"] counting as one; a last line without a
    boundary is produced only when it is not empty. *)
Fixpoint splitlines_from (cur : str) (s : str) : list str :=
  match s with
  | [] => match cur with [] => [] | _ :: _ => [cur] end
  | c :: s' =>
    if is_linebreak c then
      cur :: (if (c =? 13)%N
              then match s' with
                   | d :: s'' =>
                     if (d =? 10)%N then splitlines_from [] s''
                     else splitlines_from [] s'
                   | [] => splitlines_from [] s'
                   end
              else splitlines_from [] s')
    else splitlines_from (cur ++ [c]) s'
  end.

Definition splitlines (s : str) : list str := splitlines_from [] s.

(** [str(n)] for an integer. *)
Definition str_of_int (n : Z) : str := lit (pretty n).

End PyStr.
Export PyStr.

(** ** The fragment of [re] the source uses

    Backtracking matchers in continuation-passing style: a matcher takes
    the matcher of the rest of the pattern and the remaining subject, and
    tries its alternatives in the order [re] does. A match yields the text
    of group 1. *)

Module Re.

Definition matcher := str -> option str.

(** A literal string. *)
Fixpoint literal (l : str) (k : matcher) (s : str) : option str :=
  match l with
  | [] => k s
  | c :: l' =>
    match s with
    | d :: s' => if (c =? d)%N then literal l' k s' else None
    | [] => None
    end
  end.

(** [[class]*], greedy: as many characters as possible first, then fewer. *)
Fixpoint star (cls : char -> bool) (k : matcher) (s : str) : option str :=
  match s with
  | c :: s' =>
    if cls c then
      match star cls k s' with
      | Some r => Some r
      | None => k s
      end
    else k s
  | [] => k []
  end.

(** [([\s\S]*?)], a lazy capturing group over any character: the shortest
    capture first, then one character more. [got] is the capture so far. *)
Fixpoint lazy_group (k : str -> matcher) (got : str) (s : str) : option str :=
  match k got s with
  | Some r => Some r
  | None =>
    match s with
    | c :: s' => lazy_group k (got ++ [c]) s'
    | [] => None
    end
  end.

(** [$] without [re.MULTILINE]: the end of the subject, or just before a
    newline that ends it. *)
Definition at_end (s : str) : bool :=
  match s with
  | [] => true
  | [c] => (c =? 10)%N
  | _ => false
  end.

End Re.

(** ** Exceptions *)

Set Warnings "-register-all".

(** The exceptions the code raises or handles. [str(exc)] and [exc.data]
    of a [GithubException] are whatever the library renders and are
    carried as text. [OtherError] is an exception of any other class that
    derives from [Exception] (a [requests] connection error, an error of
    the Gemini client, an [AttributeError]), by class name and rendering.
    [BaseOnly] is an exception that derives from [BaseException] but not
    from [Exception] ([KeyboardInterrupt], [SystemExit], [GeneratorExit]):
    an [except Exception] clause does not catch it. *)
Inductive exn :=
| GithubException (status : Z) (data : str) (shown : str)
| OtherError (cls : str) (shown : str)
| BaseOnly (cls : str) (shown : str)
| ValueError (msg : str) (cause : option exn)
| PermissionError (msg : str) (cause : option exn)
| RuntimeError (msg : str) (cause : option exn).

(** [str(exc)], as [f"{exc}"] renders it. *)
Definition exn_str (e : exn) : str :=
  match e with
  | GithubException _ _ shown => shown
  | OtherError _ shown => shown
  | BaseOnly _ shown => shown
  | ValueError msg _ => msg
  | PermissionError msg _ => msg
  | RuntimeError msg _ => msg
  end.

Definition is_GithubException (e : exn) : bool :=
  match e with GithubException _ _ _ => true | _ => false end.

Definition is_RuntimeError (e : exn) : bool :=
  match e with RuntimeError _ _ => true | _ => false end.

(** [exc.status] and [exc.data] of a [GithubException]. *)
Definition exn_status (e : exn) : Z :=
  match e with GithubException status _ _ => status | _ => 0 end.

Definition exn_data (e : exn) : str :=
  match e with GithubException _ data _ => data | _ => [] end.

Definition outcome (A : Type) : Type := (exn + A)%type.

(** ** The outside world and the calls made to it *)

(** A repository object as [create_repo] returns it. *)
Record repository := { html_url : str }.

(** A file object as [get_contents] returns it. *)
Record content_file := { sha : str }.

(** A Gemini response: [response.text] raises when there is no text;
    [finish_reason] is that of [candidates[0]] when there is a candidate. *)
Record generate_response := {
  text : outcome str;
  finish_reason : option str
}.

(** What the remote services answer during one call of a public function. *)
Record world := {
  gemini_generate_content : outcome generate_response;
  github_login : outcome str;
  github_repos : outcome (list str);
  clock : Z;
  github_create_repo : outcome repository;
  github_get_contents : outcome content_file;
  github_update_file : outcome unit;
  github_create_file : outcome unit;
  github_enable_pages : outcome unit
}.

(** A call the program performs, with its arguments. *)
Inductive call :=
| Configure (api_key : str)
| GenerateContent (model_name system_instruction : str)
    (max_output_tokens : Z) (temperature : Q) (prompt : str)
| GetUserLogin (token : str)
| GetRepos
| TimeNow
| CreateRepo (name description homepage : str) (private auto_init : bool)
| Sleep (seconds : Z)
| GetContents (path ref : str)
| UpdateFile (path message content sha_ branch : str)
| CreateFile (path message content branch : str)
| EnablePages (branch path : str)
| Print (line : str).

Definition is_create_file (c : call) : bool :=
  match c with CreateFile _ _ _ _ => true | _ => false end.

Definition is_update_file (c : call) : bool :=
  match c with UpdateFile _ _ _ _ _ => true | _ => false end.

(** ** The monad of Python computations *)

Module Py.

Definition py (A : Type) : Type := world -> list call * outcome A.

Definition ret {A} (a : A) : py A := fun _ => ([], inr a).

Definition raise {A} (e : exn) : py A := fun _ => ([], inl e).

Definition bind {A B} (m : py A) (f : A -> py B) : py B :=
  fun w =>
    match m w with
    | (t, inl e) => (t, inl e)
    | (t, inr a) =>
      match f a w with
      | (t', r) => (t ++ t', r)
      end
    end.

(** [try: m  except <cls> as exc: h exc]; [handles] tells which
    exceptions the clause catches, the others propagate. *)
Definition try_except {A} (m : py A) (handles : exn -> bool)
    (h : exn -> py A) : py A :=
  fun w =>
    match m w with
    | (t, inr a) => (t, inr a)
    | (t, inl e) =>
      if handles e then
        match h e w with
        | (t', r) => (t ++ t', r)
        end
      else (t, inl e)
    end.

(** One call to the outside: logged, answered by the world. *)
Definition perform {A} (c : call) (answer : world -> outcome A) : py A :=
  fun w => ([c], answer w).

(** The calls made, and the result. *)
Definition trace {A} (r : list call * outcome A) : list call := fst r.
Definition result {A} (r : list call * outcome A) : outcome A := snd r.

End Py.
Export Py.

Notation "'let!' x ':=' m 'in' k" := (bind m (fun x => k))
  (at level 10, x name, m at level 100, k at level 200).
Notation "'run!' m 'in' k" := (bind m (fun _ => k))
  (at level 10, m at level 100, k at level 200).

(** [except Exception]: every exception but those that derive from
    [BaseException] only. *)
Definition Exception (e : exn) : bool :=
  match e with BaseOnly _ _ => false | _ => true end.

(** ** Constants *)

Definition GEMINI_MODEL : str := lit "gemini-2.0-flash".
Definition MAX_OUTPUT_TOKENS : Z := 8192.
Definition REPO_NAME_PREFIX : str := lit "portfolio-builder".
Definition PAGES_BRANCH : str := lit "main".
Definition COMMIT_MESSAGE : str :=
  [128640%N] ++ lit " Deploy portfolio via Portfolio Builder".

(** ** 1. generate_portfolio *)

(** The pattern [^```[a-zA-Z]*\n([\s\S]*?)```\s*$], matched by [re.match]
    at the start of the subject. *)
Definition fence : str := lit "```".

Definition fence_pattern : Re.matcher :=
  Re.literal fence
    (Re.star is_ascii_letter
      (Re.literal nl
        (Re.lazy_group
          (fun group1 =>
             Re.literal fence
               (Re.star is_space
                 (fun rest => if Re.at_end rest then Some group1 else None)))
          []))).

Definition _strip_markdown_fences (text : str) : str :=
  match fence_pattern (strip text) with
  | Some group1 => group1
  | None => text
  end.

(** [d.get(key, fallback)] *)
Definition get (d : gmap str str) (key fallback : str) : str :=
  default fallback (d !! key).

Definition system_prompt : str :=
  lit "You are an expert front-end developer who writes stunning, award-winning "
  ++ lit "portfolio websites. You output ONLY raw, valid HTML " ++ [8212%N]
  ++ lit " no markdown fences, "
  ++ lit "no explanatory text, no preamble. The HTML must be entirely self-contained "
  ++ lit "(all CSS and JS inline, no external stylesheets except Google Fonts CDN "
  ++ lit "and Tailwind CDN). The page must be mobile-responsive and accessible.".

(** The bullet of one link line. *)
Definition bullet (url : str) : str := lit "  " ++ [8226%N] ++ lit " " ++ strip url.

Definition links_formatted (user_data : gmap str str) : str :=
  or_else
    (join nl
       (map bullet
          (filter (fun url => truthy (strip url) = true)
             (splitlines (get user_data (lit "links") [])))))
    (lit "  (none provided)").

Definition user_prompt (user_data : gmap str str) : str :=
  strip
    (nl
     ++ lit "Create a complete, single-file HTML portfolio website for the following person." ++ nl
     ++ nl
     ++ lit "=== BIO ===" ++ nl
     ++ strip (get user_data (lit "bio") []) ++ nl
     ++ nl
     ++ lit "=== LINKS ===" ++ nl
     ++ links_formatted user_data ++ nl
     ++ nl
     ++ lit "=== DESIGN PREFERENCES ===" ++ nl
     ++ lit "Color Theme  : "
     ++ get user_data (lit "color_theme") (lit "Dark & Minimal") ++ nl
     ++ lit "Layout Style : "
     ++ get user_data (lit "layout_style") (lit "Single Page") ++ nl
     ++ lit "Extra Notes  : "
     ++ or_else (strip (get user_data (lit "aesthetic_notes") []))
          (lit "(none)") ++ nl
     ++ nl
     ++ lit "=== REQUIREMENTS ===" ++ nl
     ++ lit "1. Use Tailwind CSS (CDN) for utility classes." ++ nl
     ++ lit "2. Add tasteful CSS animations / transitions (scroll-reveal, hover effects)." ++ nl
     ++ lit "3. Include a hero section, about section, links/contact section." ++ nl
     ++ lit "4. All images should be replaced with elegant SVG illustrations or CSS art "
     ++ [8212%N] ++ nl
     ++ lit "   do not embed base64 blobs." ++ nl
     ++ lit "5. Output ONLY the HTML " ++ [8212%N] ++ lit " nothing else." ++ nl).

(** [generate_portfolio] on a dictionary whose values are strings, as its
    docstring declares them; see [generate_portfolio_any] for values of
    any type. *)
Definition generate_portfolio (api_key : str) (user_data : gmap str str)
  : py str :=
  if negb (truthy api_key) || negb (truthy (strip api_key)) then
    raise (ValueError (lit "Gemini API key must not be empty.") None)
  else
    run! perform (Configure (strip api_key)) (fun _ => inr tt) in
    let! response :=
      try_except
        (perform
           (GenerateContent GEMINI_MODEL system_prompt MAX_OUTPUT_TOKENS
              (7 # 10)%Q (user_prompt user_data))
           gemini_generate_content)
        Exception
        (fun exc =>
           raise (RuntimeError
                    (lit "Gemini API call failed: " ++ exn_str exc ++ nl
                     ++ lit "Check your API key, quota, and network connection.")
                    (Some exc))) in
    let! raw_text :=
      try_except
        (fun _ => ([], text response))
        Exception
        (fun exc =>
           raise (ValueError
                    (lit "Gemini returned no usable content. "
                     ++ lit "Finish reason: "
                     ++ default (lit "unknown") (finish_reason response)
                     ++ lit ". "
                     ++ lit "Detail: " ++ exn_str exc)
                    (Some exc))) in
    let html := _strip_markdown_fences raw_text in
    if negb (truthy (strip html)) then
      raise (ValueError (lit "Gemini returned an empty HTML response.") None)
    else ret html.

(** *** [generate_portfolio] on a dictionary of arbitrary values

    [user_data] is annotated [dict[str, Any]]: a value that is present
    need not be a [str]. [NoStr] is a value that is no [str] and has none
    of the [str] methods the code calls ([None], a number, a list, a
    dictionary), by the name of its type and by its rendering [str(v)]. *)
Inductive value :=
| Str (s : str)
| NoStr (type_name : str) (shown : str).

(** [f"{v}"] *)
Definition format_value (v : value) : str :=
  match v with
  | Str s => s
  | NoStr _ shown => shown
  end.

(** The exception of [v.attribute] on a value without that attribute. *)
Definition AttributeError (type_name attribute : str) : exn :=
  OtherError (lit "AttributeError")
    (lit "'" ++ type_name ++ lit "' object has no attribute '" ++ attribute
     ++ lit "'").

(** [v.strip()] *)
Definition strip_of (v : value) : outcome str :=
  match v with
  | Str s => inr (strip s)
  | NoStr type_name _ => inl (AttributeError type_name (lit "strip"))
  end.

(** [v.splitlines()] *)
Definition splitlines_of (v : value) : outcome (list str) :=
  match v with
  | Str s => inr (splitlines s)
  | NoStr type_name _ => inl (AttributeError type_name (lit "splitlines"))
  end.

(** [d.get(key, fallback)] *)
Definition get_any (d : gmap str value) (key : str) (fallback : value) : value :=
  default fallback (d !! key).

(** The statement that binds [links_formatted]. *)
Definition links_formatted_any (user_data : gmap str value) : outcome str :=
  match splitlines_of (get_any user_data (lit "links") (Str [])) with
  | inl exc => inl exc
  | inr lines =>
    inr (or_else
           (join nl
              (map bullet
                 (filter (fun url => truthy (strip url) = true) lines)))
           (lit "  (none provided)"))
  end.

(** The statement that binds [user_prompt]; the fields are evaluated in
    the order of the f-string. *)
Definition user_prompt_any (user_data : gmap str value) (links_formatted : str)
  : outcome str :=
  match strip_of (get_any user_data (lit "bio") (Str [])) with
  | inl exc => inl exc
  | inr bio =>
    let color_theme :=
      format_value (get_any user_data (lit "color_theme")
                      (Str (lit "Dark & Minimal"))) in
    let layout_style :=
      format_value (get_any user_data (lit "layout_style")
                      (Str (lit "Single Page"))) in
    match strip_of (get_any user_data (lit "aesthetic_notes") (Str [])) with
    | inl exc => inl exc
    | inr aesthetic_notes =>
      inr (strip
             (nl
              ++ lit "Create a complete, single-file HTML portfolio website for the following person." ++ nl
              ++ nl
              ++ lit "=== BIO ===" ++ nl
              ++ bio ++ nl
              ++ nl
              ++ lit "=== LINKS ===" ++ nl
              ++ links_formatted ++ nl
              ++ nl
              ++ lit "=== DESIGN PREFERENCES ===" ++ nl
              ++ lit "Color Theme  : " ++ color_theme ++ nl
              ++ lit "Layout Style : " ++ layout_style ++ nl
              ++ lit "Extra Notes  : "
              ++ or_else aesthetic_notes (lit "(none)") ++ nl
              ++ nl
              ++ lit "=== REQUIREMENTS ===" ++ nl
              ++ lit "1. Use Tailwind CSS (CDN) for utility classes." ++ nl
              ++ lit "2. Add tasteful CSS animations / transitions (scroll-reveal, hover effects)." ++ nl
              ++ lit "3. Include a hero section, about section, links/contact section." ++ nl
              ++ lit "4. All images should be replaced with elegant SVG illustrations or CSS art "
              ++ [8212%N] ++ nl
              ++ lit "   do not embed base64 blobs." ++ nl
              ++ lit "5. Output ONLY the HTML " ++ [8212%N] ++ lit " nothing else." ++ nl))
    end
  end.

(** An outcome computed without a call to the outside. *)
Definition evaluate {A} (o : outcome A) : py A := fun _ => ([], o).

Definition generate_portfolio_any (api_key : str) (user_data : gmap str value)
  : py str :=
  if negb (truthy api_key) || negb (truthy (strip api_key)) then
    raise (ValueError (lit "Gemini API key must not be empty.") None)
  else
    run! perform (Configure (strip api_key)) (fun _ => inr tt) in
    let! links_formatted := evaluate (links_formatted_any user_data) in
    let! user_prompt := evaluate (user_prompt_any user_data links_formatted) in
    let! response :=
      try_except
        (perform
           (GenerateContent GEMINI_MODEL system_prompt MAX_OUTPUT_TOKENS
              (7 # 10)%Q user_prompt)
           gemini_generate_content)
        Exception
        (fun exc =>
           raise (RuntimeError
                    (lit "Gemini API call failed: " ++ exn_str exc ++ nl
                     ++ lit "Check your API key, quota, and network connection.")
                    (Some exc))) in
    let! raw_text :=
      try_except
        (fun _ => ([], text response))
        Exception
        (fun exc =>
           raise (ValueError
                    (lit "Gemini returned no usable content. "
                     ++ lit "Finish reason: "
                     ++ default (lit "unknown") (finish_reason response)
                     ++ lit ". "
                     ++ lit "Detail: " ++ exn_str exc)
                    (Some exc))) in
    let html := _strip_markdown_fences raw_text in
    if negb (truthy (strip html)) then
      raise (ValueError (lit "Gemini returned an empty HTML response.") None)
    else ret html.

(** ** 2. deploy_to_github *)

(** [range(2, 100)] *)
Definition range_2_100 : list Z := map Z.of_nat (seq 2 98).

(** [f"{prefix}-{i}"] *)
Definition suffixed (prefix : str) (i : Z) : str :=
  prefix ++ lit "-" ++ str_of_int i.

(** The loop of [_unique_repo_name]: [inl name] when the loop returns
    [name], [inr candidate] when it runs to its end. *)
Fixpoint probe (existing_names : gset str) (prefix candidate : str)
    (range : list Z) : str + str :=
  match range with
  | [] => inr candidate
  | i :: range' =>
    if bool_decide (candidate ∉ existing_names) then inl candidate
    else probe existing_names prefix (suffixed prefix i) range'
  end.

Definition _unique_repo_name (prefix : str) : py str :=
  let! repos := perform GetRepos github_repos in
  let existing_names : gset str := list_to_set repos in
  match probe existing_names prefix prefix range_2_100 with
  | inl candidate => ret candidate
  | inr _ =>
    let! now := perform TimeNow (fun w => inr (clock w)) in
    ret (suffixed prefix now)
  end.

Definition _push_file (file_path content commit_message branch : str)
  : py unit :=
  try_except
    (let! existing := perform (GetContents file_path branch) github_get_contents in
     perform (UpdateFile file_path commit_message content (sha existing) branch)
       github_update_file)
    is_GithubException
    (fun exc =>
       if exn_status exc =? 404 then
         perform (CreateFile file_path commit_message content branch)
           github_create_file
       else raise exc).

(** [f"https://{username}.github.io/{repo_name}/"] *)
Definition pages_url_of (username repo_name : str) : str :=
  lit "https://" ++ username ++ lit ".github.io/" ++ repo_name ++ lit "/".

Definition deploy_to_github (github_token html_code : str) : py str :=
  if negb (truthy github_token) || negb (truthy (strip github_token)) then
    raise (ValueError (lit "GitHub token must not be empty.") None)
  else if negb (truthy html_code) || negb (truthy (strip html_code)) then
    raise (ValueError (lit "html_code must not be empty.") None)
  else
    let! username :=
      try_except
        (perform (GetUserLogin (strip github_token)) github_login)
        is_GithubException
        (fun exc =>
           if exn_status exc =? 401 then
             raise (PermissionError
                      (lit "GitHub token is invalid or expired (401 Unauthorized).")
                      (Some exc))
           else
             raise (RuntimeError
                      (lit "GitHub authentication failed: " ++ exn_str exc)
                      (Some exc))) in
    let! repo_name := _unique_repo_name REPO_NAME_PREFIX in
    let! repo :=
      try_except
        (perform
           (CreateRepo repo_name
              ([10024%N] ++ lit " Personal portfolio " ++ [8212%N]
               ++ lit " generated by Portfolio Builder")
              (pages_url_of username repo_name) false true)
           github_create_repo)
        is_GithubException
        (fun exc =>
           if exn_status exc =? 422 then
             raise (RuntimeError
                      (lit "Repository '" ++ repo_name
                       ++ lit "' already exists or the name is invalid: "
                       ++ exn_data exc)
                      (Some exc))
           else
             raise (RuntimeError
                      (lit "Failed to create repository: " ++ exn_str exc)
                      (Some exc))) in
    run! perform (Sleep 2) (fun _ => inr tt) in
    run! try_except
           (_push_file (lit "index.html") html_code COMMIT_MESSAGE PAGES_BRANCH)
           is_GithubException
           (fun exc =>
              raise (RuntimeError
                       (lit "Failed to push index.html: " ++ exn_str exc)
                       (Some exc))) in
    let! enabled :=
      try_except
        (run! perform (EnablePages PAGES_BRANCH (lit "/")) github_enable_pages in
         ret None)
        is_GithubException
        (fun exc =>
           let pages_url := pages_url_of username repo_name in
           run! perform
                  (Print
                     (lit "[Warning] Could not automatically enable GitHub Pages: "
                      ++ exn_str exc ++ nl
                      ++ lit "Please enable it manually at: " ++ html_url repo
                      ++ lit "/settings/pages" ++ nl
                      ++ lit "Expected URL once enabled: " ++ pages_url))
                  (fun _ => inr tt) in
           ret (Some pages_url)) in
    match enabled with
    | Some pages_url => ret pages_url
    | None =>
      let pages_url := pages_url_of username repo_name in
      ret pages_url
    end.

(** ** 3. The handler of the button in [app.py] *)

(** What the handler renders when it runs to its end. *)
Inductive rendered :=
| st_error (body : str)
| st_success (body : str).

(** The body of [if st.button(...)], a function of the values of the
    seven widgets. The exceptions of the two backend calls are not caught. *)
Definition build_and_deploy
    (llm_api_key github_token user_bio user_links color_theme layout_style
       aesthetic_notes : str) : py rendered :=
  let missing : list str := [] in
  let missing :=
    if negb (truthy llm_api_key) then missing ++ [lit "LLM API Key"]
    else missing in
  let missing :=
    if negb (truthy github_token) then missing ++ [lit "GitHub Token"]
    else missing in
  let missing :=
    if negb (truthy user_bio) then missing ++ [lit "Bio"] else missing in
  match missing with
  | _ :: _ =>
    ret (st_error
           (lit "Please fill in the following required fields: **"
            ++ join (lit ", ") missing ++ lit "**"))
  | [] =>
    let user_data : gmap str str :=
      <[lit "aesthetic_notes" := aesthetic_notes]>
        (<[lit "layout_style" := layout_style]>
           (<[lit "color_theme" := color_theme]>
              (<[lit "links" := user_links]>
                 (<[lit "bio" := user_bio]> ∅)))) in
    let! html := generate_portfolio llm_api_key user_data in
    let! pages_url := deploy_to_github github_token html in
    ret (st_success
           ([127881%N] ++ lit " Live at [" ++ pages_url ++ lit "]("
            ++ pages_url ++ lit ")"))
  end.

(** * Auxiliary definitions

    Notions the statements below are phrased with. *)

(** The names the loop of [_unique_repo_name] tests for membership, in
    the order it tests them. *)
Fixpoint probed (prefix candidate : str) (range : list Z) : list str :=
  match range with
  | [] => []
  | i :: range' => candidate :: probed prefix (suffixed prefix i) range'
  end.

(** A world in which the account has the repositories [repos] and the
    clock reads [now]; every other call succeeds, the file does not exist
    yet. *)
Definition account_world (login : str) (repos : list str) (now : Z) : world :=
  {| gemini_generate_content :=
       inr {| text := inr (lit "<html></html>"); finish_reason := Some (lit "STOP") |};
     github_login := inr login;
     github_repos := inr repos;
     clock := now;
     github_create_repo := inr {| html_url := lit "https://github.com/" ++ login |};
     github_get_contents := inl (GithubException 404 (lit "Not Found") (lit "404 Not Found"));
     github_update_file := inr tt;
     github_create_file := inr tt;
     github_enable_pages := inr tt |}.

(** The 98 names [portfolio-builder], [portfolio-builder-2] ...
    [portfolio-builder-98]. *)
Definition names_up_to_98 : list str :=
  REPO_NAME_PREFIX :: map (suffixed REPO_NAME_PREFIX) (map Z.of_nat (seq 2 97)).

(** A string that does not end in whitespace. *)
Definition no_trailing_space (s : str) : Prop :=
  ∀ pre c, s = pre ++ [c] → is_space c = false.

(** A string made of whitespace only (the empty string included). *)
Definition blank (s : str) : Prop := Forall (λ c, is_space c = true) s.

(** [s] is a fenced block: three backticks, a tag of ASCII letters, a
    newline, [inner], three backticks. *)
Definition fenced (s tag inner : str) : Prop :=
  s = fence ++ tag ++ nl ++ inner ++ fence
  ∧ Forall (λ c, is_ascii_letter c = true) tag.

(** [s] has three backticks in a row somewhere. *)
Fixpoint has_fence (s : str) : bool :=
  match s with
  | [] => false
  | _ :: s' => bool_decide (fence `prefix_of` s) || has_fence s'
  end.

(** A response wrapped in a fence with the tag [html], and a response
    that wraps such a block in a second, outer fence. *)
Definition fenced_page : str :=
  lit "```html" ++ nl ++ lit "<p>hi</p>" ++ nl ++ lit "```".

Definition nested_fences : str :=
  lit "```" ++ nl ++ fenced_page ++ nl ++ lit "```".

(** The part of [fence_pattern] after group 1: the closing fence, [\s*]
    and [$]. *)
Definition closing (group1 : str) : Re.matcher :=
  Re.literal fence
    (Re.star is_space
       (λ rest, if Re.at_end rest then Some group1 else None)).

(** The calls and messages of [deploy_to_github], named. *)
Definition create_repo_call (username repo_name : str) : call :=
  CreateRepo repo_name
    ([10024%N] ++ lit " Personal portfolio " ++ [8212%N]
     ++ lit " generated by Portfolio Builder")
    (pages_url_of username repo_name) false true.

Definition enable_pages_call : call := EnablePages PAGES_BRANCH (lit "/").

Definition pages_warning (exc : exn) (repo : repository)
    (username repo_name : str) : call :=
  Print
    (lit "[Warning] Could not automatically enable GitHub Pages: "
     ++ exn_str exc ++ nl
     ++ lit "Please enable it manually at: " ++ html_url repo
     ++ lit "/settings/pages" ++ nl
     ++ lit "Expected URL once enabled: " ++ pages_url_of username repo_name).

(** The upload step of [deploy_to_github]. *)
Definition push_index (html_code : str) : py unit :=
  _push_file (lit "index.html") html_code COMMIT_MESSAGE PAGES_BRANCH.

Definition update_index_call (html_code sha_ : str) : call :=
  UpdateFile (lit "index.html") COMMIT_MESSAGE html_code sha_ PAGES_BRANCH.

Definition create_index_call (html_code : str) : call :=
  CreateFile (lit "index.html") COMMIT_MESSAGE html_code PAGES_BRANCH.

(** What an [except GithubException] clause of [deploy_to_github] that
    re-raises as [RuntimeError] makes of the exception [e]. *)
Definition wrapped_as_runtime (msg : str) (e : exn) : exn :=
  if is_GithubException e then RuntimeError (msg ++ exn_str e) (Some e) else e.

#[global] Instance blank_dec (s : str) : Decision (blank s).
Proof. unfold blank. apply _. Defined.

(** Worlds that differ from a given one in the answer to one call. *)
Definition with_login (o : outcome str) (w : world) : world :=
  {| gemini_generate_content := gemini_generate_content w;
     github_login := o;
     github_repos := github_repos w;
     clock := clock w;
     github_create_repo := github_create_repo w;
     github_get_contents := github_get_contents w;
     github_update_file := github_update_file w;
     github_create_file := github_create_file w;
     github_enable_pages := github_enable_pages w |}.

Definition with_contents (o : outcome content_file) (w : world) : world :=
  {| gemini_generate_content := gemini_generate_content w;
     github_login := github_login w;
     github_repos := github_repos w;
     clock := clock w;
     github_create_repo := github_create_repo w;
     github_get_contents := o;
     github_update_file := github_update_file w;
     github_create_file := github_create_file w;
     github_enable_pages := github_enable_pages w |}.

Definition with_pages (o : outcome unit) (w : world) : world :=
  {| gemini_generate_content := gemini_generate_content w;
     github_login := github_login w;
     github_repos := github_repos w;
     clock := clock w;
     github_create_repo := github_create_repo w;
     github_get_contents := github_get_contents w;
     github_update_file := github_update_file w;
     github_create_file := github_create_file w;
     github_enable_pages := o |}.

(** The account of the examples: login [alice], with the two repositories
    [portfolio-builder] and [portfolio-builder-2]. *)
Definition alice_world : world :=
  account_world (lit "alice")
    [lit "portfolio-builder"; lit "portfolio-builder-2"] 1700000000.

(** Exceptions of the examples. *)
Definition connection_error : exn :=
  OtherError (lit "ConnectionError") (lit "Connection refused").

Definition unauthorized : exn :=
  GithubException 401 (lit "Bad credentials") (lit "401 Bad credentials").

Definition forbidden : exn :=
  GithubException 403 (lit "Forbidden") (lit "403 Forbidden").

Definition not_found : exn :=
  GithubException 404 (lit "Not Found") (lit "404 Not Found").

(** The file-writing calls of a trace, in order. *)
Definition file_writes (calls : list call) : list call :=
  List.filter (λ c, is_create_file c || is_update_file c) calls.

(** The text of the per-request prompt around its five variable parts. *)
Definition prompt_template
    (bio links_block color_theme layout_style extra_notes : str) : str :=
  lit "Create a complete, single-file HTML portfolio website for the following person." ++ nl
  ++ nl
  ++ lit "=== BIO ===" ++ nl
  ++ bio ++ nl
  ++ nl
  ++ lit "=== LINKS ===" ++ nl
  ++ links_block ++ nl
  ++ nl
  ++ lit "=== DESIGN PREFERENCES ===" ++ nl
  ++ lit "Color Theme  : " ++ color_theme ++ nl
  ++ lit "Layout Style : " ++ layout_style ++ nl
  ++ lit "Extra Notes  : " ++ extra_notes ++ nl
  ++ nl
  ++ lit "=== REQUIREMENTS ===" ++ nl
  ++ lit "1. Use Tailwind CSS (CDN) for utility classes." ++ nl
  ++ lit "2. Add tasteful CSS animations / transitions (scroll-reveal, hover effects)." ++ nl
  ++ lit "3. Include a hero section, about section, links/contact section." ++ nl
  ++ lit "4. All images should be replaced with elegant SVG illustrations or CSS art "
  ++ [8212%N] ++ nl
  ++ lit "   do not embed base64 blobs." ++ nl
  ++ lit "5. Output ONLY the HTML " ++ [8212%N] ++ lit " nothing else.".

(** The lines of the links field that are not blank, in order. *)
Definition link_lines (user_data : gmap str str) : list str :=
  filter (λ line, ¬ blank line)
    (splitlines (get user_data (lit "links") [])).

(** The links block of a links field. *)
Definition links_block (links : str) : str :=
  or_else
    (join nl (map bullet (filter (λ line, ¬ blank line) (splitlines links))))
    (lit "  (none provided)").

(** The two statements that build the prompt, in sequence. *)
Definition build_user_prompt (user_data : gmap str value) : outcome str :=
  match links_formatted_any user_data with
  | inl exc => inl exc
  | inr links_formatted => user_prompt_any user_data links_formatted
  end.



(** A string without line boundaries. *)
Definition one_line (s : str) : Prop := Forall (λ c, is_linebreak c = false) s.

(** A profile of the examples. *)
Definition example_links : str :=
  lit "  https://github.com/x " ++ nl ++ lit "   " ++ [13%N; 10%N]
  ++ lit "https://linkedin.com/in/x" ++ nl.

Definition example_profile : gmap str str :=
  <[lit "bio" := lit "Software engineer."]>
    (<[lit "links" := example_links]> ∅).

(** The first, and the last, character of [s] exists and is no whitespace. *)
Definition starts_nonspace (s : str) : bool :=
  match s with c :: _ => negb (is_space c) | [] => false end.

Definition ends_nonspace (s : str) : bool := starts_nonspace (rev s).

(** More notions for the statements below. *)

Definition is_PermissionError (e : exn) : bool :=
  match e with PermissionError _ _ => true | _ => false end.

Definition is_ValueError (e : exn) : bool :=
  match e with ValueError _ _ => true | _ => false end.

Definition is_enable_pages (c : call) : bool :=
  match c with EnablePages _ _ => true | _ => false end.

Definition is_create_repo (c : call) : bool :=
  match c with CreateRepo _ _ _ _ _ => true | _ => false end.

(** The repository-creation calls of a trace. *)
Definition repo_creations (calls : list call) : list call :=
  List.filter is_create_repo calls.

(** The pages-enablement calls of a trace. *)
Definition pages_calls (calls : list call) : list call :=
  List.filter is_enable_pages calls.

(** An answer of the world that is a value or a [GithubException]. *)
Definition github_failure {A} (o : outcome A) : Prop :=
  match o with
  | inr _ => True
  | inl e => is_GithubException e = true
  end.

(** The two calls every run of [generate_portfolio] past its guard makes. *)
Definition generate_calls_of (api_key : str) (user_data : gmap str str)
  : list call :=
  [Configure (strip api_key);
   GenerateContent GEMINI_MODEL system_prompt MAX_OUTPUT_TOKENS (7 # 10)%Q
     (user_prompt user_data)].

(** The dictionary the handler of [app.py] builds. *)
Definition form_data
    (user_bio user_links color_theme layout_style aesthetic_notes : str)
  : gmap str str :=
  <[lit "aesthetic_notes" := aesthetic_notes]>
    (<[lit "layout_style" := layout_style]>
       (<[lit "color_theme" := color_theme]>
          (<[lit "links" := user_links]>
             (<[lit "bio" := user_bio]> ∅)))).

(** Worlds of the examples that differ in one more answer. *)
Definition with_repos (o : outcome (list str)) (w : world) : world :=
  {| gemini_generate_content := gemini_generate_content w;
     github_login := github_login w;
     github_repos := o;
     clock := clock w;
     github_create_repo := github_create_repo w;
     github_get_contents := github_get_contents w;
     github_update_file := github_update_file w;
     github_create_file := github_create_file w;
     github_enable_pages := github_enable_pages w |}.

Definition with_create_repo (o : outcome repository) (w : world) : world :=
  {| gemini_generate_content := gemini_generate_content w;
     github_login := github_login w;
     github_repos := github_repos w;
     clock := clock w;
     github_create_repo := o;
     github_get_contents := github_get_contents w;
     github_update_file := github_update_file w;
     github_create_file := github_create_file w;
     github_enable_pages := github_enable_pages w |}.

Definition with_update_file (o : outcome unit) (w : world) : world :=
  {| gemini_generate_content := gemini_generate_content w;
     github_login := github_login w;
     github_repos := github_repos w;
     clock := clock w;
     github_create_repo := github_create_repo w;
     github_get_contents := github_get_contents w;
     github_update_file := o;
     github_create_file := github_create_file w;
     github_enable_pages := github_enable_pages w |}.

Definition with_create_file (o : outcome unit) (w : world) : world :=
  {| gemini_generate_content := gemini_generate_content w;
     github_login := github_login w;
     github_repos := github_repos w;
     clock := clock w;
     github_create_repo := github_create_repo w;
     github_get_contents := github_get_contents w;
     github_update_file := github_update_file w;
     github_create_file := o;
     github_enable_pages := github_enable_pages w |}.

Definition with_generation (o : outcome generate_response) (w : world)
  : world :=
  {| gemini_generate_content := o;
     github_login := github_login w;
     github_repos := github_repos w;
     clock := clock w;
     github_create_repo := github_create_repo w;
     github_get_contents := github_get_contents w;
     github_update_file := github_update_file w;
     github_create_file := github_create_file w;
     github_enable_pages := github_enable_pages w |}.

Definition keyboard_interrupt : exn := BaseOnly (lit "KeyboardInterrupt") [].

Definition unprocessable : exn :=
  GithubException 422 (lit "name already exists on this account")
    (lit "422 Unprocessable Entity").

(** * Properties *)

(** A decidable statement about concrete values, settled by evaluation. *)
Ltac computed := apply (bool_decide_unpack _); vm_compute; exact I.


(** ** Name resolution *)

Section NameResolution.

Implicit Types (existing_names : gset str) (prefix candidate name : str).

(** [prefix], then [prefix-2] ... [prefix-98]: the candidate built in the
    last iteration, [prefix-99], is not among them. *)
Lemma probed_range prefix :
  probed prefix prefix range_2_100
  = prefix :: map (suffixed prefix) (map Z.of_nat (seq 2 97)).
Proof. reflexivity. Qed.

Lemma probe_returns existing_names prefix range : ∀ candidate name,
  probe existing_names prefix candidate range = inl name →
  (name ∉ existing_names) ∧
  (∃ before after,
    probed prefix candidate range = before ++ name :: after ∧
    Forall (λ n, n ∈ existing_names) before).
Proof.
  induction range as [|i range IH]; intros candidate name; cbn [probe probed].
  - discriminate.
  - case_bool_decide as Hfree.
    + intros [= <-]. split; [done|]. by exists [], (probed prefix (suffixed prefix i) range).
    + intros Hp. destruct (IH _ _ Hp) as (Hn & before & after & Heq & Hall).
      split; [done|]. exists (candidate :: before), after. split.
      * by rewrite Heq.
      * by constructor.
Qed.

Lemma probe_exhausted existing_names prefix range : ∀ candidate last,
  probe existing_names prefix candidate range = inr last →
  Forall (λ n, n ∈ existing_names) (probed prefix candidate range).
Proof.
  induction range as [|i range IH]; intros candidate last; cbn [probe probed].
  - constructor.
  - case_bool_decide as Hfree; [discriminate|].
    intros Hp. constructor; [done | by eapply IH].
Qed.

Lemma probe_all_taken existing_names prefix range : ∀ candidate,
  Forall (λ n, n ∈ existing_names) (probed prefix candidate range) →
  ∃ last, probe existing_names prefix candidate range = inr last.
Proof.
  induction range as [|i range IH]; intros candidate; cbn [probe probed].
  - by exists candidate.
  - intros [Hc Hrest]%Forall_cons. rewrite bool_decide_eq_false_2; [|by intros ?].
    by apply IH.
Qed.

(** What [_unique_repo_name] does once the repositories are listed. *)
Lemma unique_repo_name_run (w : world) prefix repos :
  github_repos w = inr repos →
  _unique_repo_name prefix w =
    match probe (list_to_set repos) prefix prefix range_2_100 with
    | inl candidate => ([GetRepos], inr candidate)
    | inr _ => ([GetRepos; TimeNow], inr (suffixed prefix (clock w)))
    end.
Proof.
  intros Hrepos. unfold _unique_repo_name, bind, perform. rewrite Hrepos.
  by destruct (probe _ _ _ _).
Qed.

Lemma unique_repo_name_listing_fails (w : world) prefix e :
  github_repos w = inl e →
  _unique_repo_name prefix w = ([GetRepos], inl e).
Proof.
  intros Hrepos. unfold _unique_repo_name, bind, perform. by rewrite Hrepos.
Qed.

(** Name resolution returns a name whenever the listing succeeds. *)
Lemma unique_repo_name_total (w : world) prefix repos :
  github_repos w = inr repos →
  ∃ name, result (_unique_repo_name prefix w) = inr name.
Proof.
  intros Hrepos. rewrite (unique_repo_name_run _ _ _ Hrepos).
  destruct (probe _ _ _ _); eauto.
Qed.

End NameResolution.


Section NameResolutionClaims.

Implicit Types (prefix name : str) (repos : list str).

Lemma names_up_to_98_probed :
  probed REPO_NAME_PREFIX REPO_NAME_PREFIX range_2_100 = names_up_to_98.
Proof. apply probed_range. Qed.

(** With every probed name taken, the loop runs to its end. *)
Lemma probe_names_up_to_98 repos :
  (∀ n, n ∈ names_up_to_98 → n ∈ repos) →
  ∃ last,
    probe (list_to_set repos) REPO_NAME_PREFIX REPO_NAME_PREFIX range_2_100
    = inr last.
Proof.
  intros Hsub. apply probe_all_taken. rewrite names_up_to_98_probed.
  apply Forall_forall. intros n Hn. apply elem_of_list_to_set. auto.
Qed.

(** C1 (as amended). Whenever the repository listing succeeds, name
    resolution returns a name, and that name is either absent from the set
    of existing names or it is the timestamped fallback
    [prefix-<unix-timestamp>], which is returned without a membership test
    and only when every probed name is taken. For the existing names
    [{"portfolio-builder", "portfolio-builder-2"}] the result is exactly
    ["portfolio-builder-3"]. *)
Theorem unique_repo_name_fresh_or_fallback (w : world) prefix repos :
  github_repos w = inr repos →
  (∃ name,
     result (_unique_repo_name prefix w) = inr name ∧
     (name ∉ (list_to_set repos : gset str)
      ∨ (name = suffixed prefix (clock w)
         ∧ Forall (λ n, n ∈ (list_to_set repos : gset str))
             (probed prefix prefix range_2_100))))
  ∧ ((list_to_set repos : gset str)
       = {[ lit "portfolio-builder"; lit "portfolio-builder-2" ]} →
     result (_unique_repo_name REPO_NAME_PREFIX w)
     = inr (lit "portfolio-builder-3")).
Proof.
  intros Hrepos. split.
  - rewrite (unique_repo_name_run _ _ _ Hrepos).
    destruct (probe _ _ _ _) as [name|last] eqn:Hprobe.
    + exists name. split; [done|]. left. by apply probe_returns in Hprobe as [? _].
    + exists (suffixed prefix (clock w)). split; [done|]. right. split; [done|].
      by eapply probe_exhausted.
  - intros Hset. rewrite (unique_repo_name_run _ _ _ Hrepos), Hset.
    by vm_compute.
Qed.

Lemma unique_repo_name_fresh_or_fallback_witness :
  result (_unique_repo_name REPO_NAME_PREFIX
            (account_world (lit "alice")
               [lit "portfolio-builder"; lit "portfolio-builder-2"] 1700000000))
  = inr (lit "portfolio-builder-3").
Proof.
  refine (proj2 (unique_repo_name_fresh_or_fallback
                   (account_world (lit "alice")
                      [lit "portfolio-builder"; lit "portfolio-builder-2"]
                      1700000000)
                   REPO_NAME_PREFIX
                   [lit "portfolio-builder"; lit "portfolio-builder-2"]
                   eq_refl) _).
  set_solver.
Defined.

(** C1, counterexample. An account holding the 98 probed names and the
    repository [portfolio-builder-1700000000], asked at clock reading
    1700000000: name resolution returns a name of the existing set. *)
Lemma unique_repo_name_returns_existing_name :
  let repos := names_up_to_98 ++ [lit "portfolio-builder-1700000000"] in
  let w := account_world (lit "alice") repos 1700000000 in
  ∃ name,
    result (_unique_repo_name REPO_NAME_PREFIX w) = inr name ∧
    name ∈ (list_to_set repos : gset str).
Proof.
  intros repos w. exists (lit "portfolio-builder-1700000000").
  rewrite (unique_repo_name_run w REPO_NAME_PREFIX repos eq_refl).
  destruct (probe_names_up_to_98 repos) as [last ->].
  { intros n Hn. apply elem_of_app. by left. }
  split.
  - by vm_compute.
  - apply elem_of_list_to_set, elem_of_app. right. by apply list_elem_of_singleton.
Qed.

(** C3, the code at the failing input. With exactly [portfolio-builder],
    [portfolio-builder-2] ... [portfolio-builder-98] taken, the name
    [portfolio-builder-99] is free, yet it is never tested: the names tested
    are the 98 taken ones, and the result is the timestamped fallback. *)
Theorem unique_repo_name_skips_99 :
  let w := account_world (lit "alice") names_up_to_98 1700000000 in
  (lit "portfolio-builder-99" ∉ (list_to_set names_up_to_98 : gset str))
  ∧ probed REPO_NAME_PREFIX REPO_NAME_PREFIX range_2_100 = names_up_to_98
  ∧ _unique_repo_name REPO_NAME_PREFIX w
    = ([GetRepos; TimeNow], inr (lit "portfolio-builder-1700000000")).
Proof.
  intros w. split; [|split].
  - rewrite elem_of_list_to_set.
    apply (bool_decide_eq_false_1 (lit "portfolio-builder-99" ∈ names_up_to_98)).
    by vm_compute.
  - apply names_up_to_98_probed.
  - rewrite (unique_repo_name_run w REPO_NAME_PREFIX names_up_to_98 eq_refl).
    destruct (probe_names_up_to_98 names_up_to_98) as [last ->]; [done|].
    by vm_compute.
Qed.

End NameResolutionClaims.

(** ** Strings *)

Section Strip.

Implicit Types (s t : str) (c : char).

Lemma lstrip_split s : ∃ a, s = a ++ lstrip s ∧ blank a.
Proof.
  induction s as [|c s (a & Hs & Ha)].
  { exists []. split; [done | constructor]. }
  cbn [lstrip]. destruct (is_space c) eqn:Hc.
  - exists (c :: a). split; [by rewrite Hs at 1 | by constructor].
  - exists []. split; [done | constructor].
Qed.

Lemma lstrip_head s c t : lstrip s = c :: t → is_space c = false.
Proof.
  induction s as [|d s IH]; [done|]. cbn [lstrip].
  destruct (is_space d) eqn:Hd; [done|]. by intros [= <- _].
Qed.

Lemma lstrip_blank s : lstrip s = [] ↔ blank s.
Proof.
  unfold blank. induction s as [|c s IH].
  { split; [constructor | done]. }
  cbn [lstrip]. destruct (is_space c) eqn:Hc.
  - rewrite IH. split; [by constructor | by intros [_ ?]%Forall_cons].
  - split; [done|]. intros [? _]%Forall_cons. congruence.
Qed.

Lemma lstrip_id c t : is_space c = false → lstrip (c :: t) = c :: t.
Proof. intros Hc. cbn [lstrip]. by rewrite Hc. Qed.

Lemma rstrip_no_trailing s : no_trailing_space (rstrip s).
Proof.
  intros pre c Heq. unfold rstrip in Heq.
  apply (f_equal (@rev char)) in Heq. rewrite rev_involutive, rev_app_distr in Heq.
  by apply lstrip_head in Heq.
Qed.

Lemma strip_no_trailing s : no_trailing_space (strip s).
Proof. apply rstrip_no_trailing. Qed.

Lemma no_trailing_suffix s t : no_trailing_space (s ++ t) → no_trailing_space t.
Proof.
  intros H pre c ->. apply (H (s ++ pre) c). by rewrite app_assoc.
Qed.

Lemma blank_rev s : blank s → blank (rev s).
Proof.
  unfold blank. rewrite !Forall_forall. intros H c Hc. apply H.
  apply list_elem_of_In. apply list_elem_of_In, in_rev in Hc. done.
Qed.

Lemma rstrip_split s : ∃ b, s = rstrip s ++ b ∧ blank b.
Proof.
  destruct (lstrip_split (rev s)) as (a & Hs & Ha).
  exists (rev a). split.
  - unfold rstrip. rewrite <- rev_app_distr, <- Hs. symmetry. apply rev_involutive.
  - by apply blank_rev.
Qed.

Lemma strip_split s : ∃ a b, s = a ++ strip s ++ b ∧ blank a ∧ blank b.
Proof.
  destruct (lstrip_split s) as (a & Hs & Ha).
  destruct (rstrip_split (lstrip s)) as (b & Hl & Hb).
  exists a, b. split; [|done]. unfold strip. by rewrite <- Hl.
Qed.

Lemma blank_app s t : blank (s ++ t) ↔ blank s ∧ blank t.
Proof. apply Forall_app. Qed.

(** [s.strip()] is empty exactly when [s] is whitespace only. *)
Lemma strip_blank s : strip s = [] ↔ blank s.
Proof.
  split.
  - intros Hs. destruct (strip_split s) as (a & b & Heq & Ha & Hb).
    rewrite Hs in Heq. rewrite Heq. by apply blank_app.
  - intros Hs. unfold strip. apply lstrip_blank in Hs. rewrite Hs. done.
Qed.

(** The test [not s or not s.strip()] of the guards. *)
Lemma guard_blank s :
  negb (truthy s) || negb (truthy (strip s)) = true ↔ blank s.
Proof.
  rewrite <- strip_blank. destruct s as [|c s]; [done|].
  cbn [truthy negb orb]. destruct (strip (c :: s)); cbn [truthy negb]; split; done.
Qed.

End Strip.

(** ** The fence pattern *)

Section FencePattern.

Implicit Types (s t g r : str) (c : char) (k : Re.matcher).

Lemma literal_app l k s : Re.literal l k (l ++ s) = k s.
Proof.
  induction l as [|c l IH]; [done|]. cbn [Re.literal app].
  by rewrite N.eqb_refl.
Qed.

Lemma literal_Some l k s r :
  Re.literal l k s = Some r → ∃ s', s = l ++ s' ∧ k s' = Some r.
Proof.
  revert s. induction l as [|c l IH]; intros s; cbn [Re.literal].
  - intros Hk. by exists s.
  - destruct s as [|d s]; [done|].
    destruct (c =? d)%N eqn:Hcd; [|done].
    apply N.eqb_eq in Hcd as ->.
    intros (s' & -> & Hk)%IH. by exists s'.
Qed.

(** A greedy star whose continuation fails on every character of the
    class stops exactly where the class stops. *)
Lemma star_maximal cls k pre post :
  (∀ c t, cls c = true → k (c :: t) = None) →
  Forall (λ c, cls c = true) pre →
  match post with c :: _ => cls c = false | [] => True end →
  Re.star cls k (pre ++ post) = k post.
Proof.
  intros Hk Hpre Hpost. induction Hpre as [|c pre Hc _ IH].
  - destruct post as [|c post]; [done|]. cbn [app Re.star]. by rewrite Hpost.
  - cbn [app Re.star]. rewrite Hc, IH. destruct (k post) eqn:Hp; [done|].
    by apply Hk.
Qed.

Lemma star_Some cls k s r :
  Re.star cls k s = Some r →
  ∃ pre post, s = pre ++ post ∧ Forall (λ c, cls c = true) pre ∧ k post = Some r.
Proof.
  induction s as [|c s IH]; cbn [Re.star].
  - intros Hk. exists [], []. by repeat split.
  - destruct (cls c) eqn:Hc.
    + destruct (Re.star cls k s) as [r'|] eqn:Hs.
      * intros [= ->]. destruct (IH eq_refl) as (pre & post & -> & Hpre & Hk).
        exists (c :: pre), post. repeat split; [|done]. by constructor.
      * intros Hk. exists [], (c :: s). by repeat split.
    + intros Hk. exists [], (c :: s). by repeat split.
Qed.

(** [\s*$] after the closing fence: the rest is whitespace only. *)
Lemma star_space_at_end g s :
  Re.star is_space (λ rest, if Re.at_end rest then Some g else None) s
  = if forallb is_space s then Some g else None.
Proof.
  induction s as [|c s IH]; [done|]. cbn [Re.star forallb].
  destruct (is_space c) eqn:Hc.
  - rewrite IH. cbn [andb]. destruct (forallb is_space s) eqn:Hs; [done|].
    destruct s as [|d s]; [done|]. done.
  - cbn [andb]. destruct s as [|d s]; [|done].
    cbn [Re.at_end]. destruct (c =? 10)%N eqn:Hnl; [|done].
    apply N.eqb_eq in Hnl as ->. done.
Qed.

(** On a subject without trailing whitespace, the closing fence matches
    only as the whole rest. *)
Lemma closing_Some g s r :
  no_trailing_space s → closing g s = Some r → s = fence ∧ r = g.
Proof.
  intros Hs (ws & -> & Hws)%literal_Some.
  rewrite star_space_at_end in Hws.
  destruct (forallb is_space ws) eqn:Hall; [|done].
  injection Hws as <-. split; [|done].
  destruct (list.last ws) as [c|] eqn:Hlast.
  - apply last_Some in Hlast as [pre ->].
    rewrite forallb_app in Hall. apply andb_true_iff in Hall as [_ Hc].
    cbn [forallb] in Hc. rewrite andb_true_r in Hc.
    rewrite (Hs (fence ++ pre) c) in Hc; [done|]. by rewrite app_assoc.
  - apply last_None in Hlast as ->. by rewrite app_nil_r.
Qed.

(** The lazy group takes everything up to a closing fence that ends the
    subject. *)
Lemma lazy_group_Some got s r :
  no_trailing_space s →
  Re.lazy_group closing got s = Some r → ∃ m, s = m ++ fence ∧ r = got ++ m.
Proof.
  revert got. induction s as [|c s IH]; intros got Hs; cbn [Re.lazy_group].
  - done.
  - destruct (closing got (c :: s)) as [r'|] eqn:Hc.
    + intros [= ->]. apply closing_Some in Hc as [Hf ->]; [|done].
      exists []. by rewrite app_nil_r.
    + intros Hl. apply IH in Hl as (m & -> & ->).
      * exists (c :: m). by rewrite <- app_assoc.
      * by apply (no_trailing_suffix [c]).
Qed.

Lemma lazy_group_fence got m :
  no_trailing_space (m ++ fence) →
  Re.lazy_group closing got (m ++ fence) = Some (got ++ m).
Proof.
  revert got. induction m as [|c m IH]; intros got Hs.
  - by rewrite app_nil_r.
  - cbn [app Re.lazy_group].
    destruct (closing got (c :: m ++ fence)) as [r|] eqn:Hc.
    + apply closing_Some in Hc as [Hf _]; [|done].
      apply (f_equal (@List.length char)) in Hf.
      cbn in Hf. rewrite List.length_app in Hf. cbn in Hf. lia.
    + rewrite IH; [by rewrite <- app_assoc|]. by apply (no_trailing_suffix [c]).
Qed.

Lemma letter_not_newline c t k :
  is_ascii_letter c = true → Re.literal nl k (c :: t) = None.
Proof.
  intros Hc. cbn [Re.literal nl]. destruct (10 =? c)%N eqn:Hnl; [|done].
  apply N.eqb_eq in Hnl as <-. done.
Qed.

Lemma fence_pattern_closing :
  fence_pattern
  = Re.literal fence
      (Re.star is_ascii_letter (Re.literal nl (Re.lazy_group closing []))).
Proof. done. Qed.

(** The pattern matches a subject without trailing whitespace exactly
    when the subject is a fenced block, and group 1 is its inner text. *)
Lemma fence_pattern_fenced s tag inner :
  no_trailing_space s → fenced s tag inner → fence_pattern s = Some inner.
Proof.
  intros Hs [-> Htag]. rewrite fence_pattern_closing, literal_app.
  rewrite star_maximal; [|by intros; apply letter_not_newline|done|done].
  rewrite literal_app. apply (lazy_group_fence []).
  apply (no_trailing_suffix (fence ++ tag ++ nl)). by rewrite <- !app_assoc.
Qed.

Lemma fence_pattern_Some s g :
  no_trailing_space s → fence_pattern s = Some g → ∃ tag, fenced s tag g.
Proof.
  intros Hs. rewrite fence_pattern_closing.
  intros (s1 & -> & H1)%literal_Some.
  apply star_Some in H1 as (tag & s2 & -> & Htag & H2).
  apply literal_Some in H2 as (s3 & -> & H3).
  apply lazy_group_Some in H3 as (m & -> & ->).
  - by exists tag.
  - apply (no_trailing_suffix (fence ++ tag ++ nl)). by rewrite <- !app_assoc.
Qed.

Lemma has_fence_app a b : has_fence (a ++ fence ++ b) = true.
Proof.
  induction a as [|c a IH].
  - cbn [app]. change (fence ++ b) with (96%N :: lit "``" ++ b) at 1.
    cbn [has_fence]. rewrite bool_decide_eq_true_2; [done|].
    by exists b.
  - cbn [app has_fence]. rewrite IH. apply orb_true_r.
Qed.

Lemma fenced_has_fence s tag inner : fenced s tag inner → has_fence s = true.
Proof. intros [-> _]. apply (has_fence_app []). Qed.

Lemma has_fence_strip s : has_fence (strip s) = true → has_fence s = true.
Proof.
  destruct (strip_split s) as (a & b & Hs & _). rewrite Hs at 2.
  revert Hs. generalize (strip s). intros u _ Hu. clear s.
  induction a as [|c a IH].
  - cbn [app]. induction u as [|d u IHu]; [done|].
    cbn [app has_fence] in *. apply orb_true_iff in Hu as [Hp|Hu].
    + apply bool_decide_eq_true_1 in Hp as [k Hk].
      rewrite bool_decide_eq_true_2; [done|].
      exists (k ++ b). change (d :: u ++ b) with ((d :: u) ++ b).
      by rewrite Hk, <- app_assoc.
    + rewrite (IHu Hu). apply orb_true_r.
  - cbn [app has_fence]. rewrite IH. apply orb_true_r.
Qed.

(** A subject the pattern does not match is not a fenced block. *)
Lemma fence_pattern_None s :
  no_trailing_space s → fence_pattern s = None →
  ∀ tag inner, ¬ fenced s tag inner.
Proof.
  intros Hs Hnone tag inner Hf.
  apply (fence_pattern_fenced _ _ _ Hs) in Hf. congruence.
Qed.

Lemma strip_markdown_fences_fenced text tag inner :
  fenced (strip text) tag inner → _strip_markdown_fences text = inner.
Proof.
  intros Hf. unfold _strip_markdown_fences.
  by rewrite (fence_pattern_fenced _ _ _ (strip_no_trailing text) Hf).
Qed.

Lemma strip_markdown_fences_unfenced text :
  (∀ tag inner, ¬ fenced (strip text) tag inner) →
  _strip_markdown_fences text = text.
Proof.
  intros Hnot. unfold _strip_markdown_fences.
  destruct (fence_pattern (strip text)) as [g|] eqn:Hm; [|done].
  apply fence_pattern_Some in Hm as [tag Hf]; [|apply strip_no_trailing].
  by destruct (Hnot tag g).
Qed.

Lemma strip_markdown_fences_no_fence text :
  has_fence text = false → _strip_markdown_fences text = text.
Proof.
  intros Hno. apply strip_markdown_fences_unfenced. intros tag inner Hf.
  apply fenced_has_fence, has_fence_strip in Hf. congruence.
Qed.

End FencePattern.

Section FenceStrippingClaims.

(** C2 (as amended). When the trimmed input is a fenced block (three
    backticks, a tag of zero or more ASCII letters, a newline, the inner
    text, three backticks) fence stripping returns exactly the inner text,
    and stripping again changes nothing provided the inner text has no
    three backticks in a row. When the trimmed input is not such a block
    the input is returned unchanged, and stripping again changes nothing
    either. *)
Theorem strip_markdown_fences_spec (text : str) :
  (∀ tag inner,
     fenced (strip text) tag inner →
     _strip_markdown_fences text = inner
     ∧ (has_fence inner = false →
        _strip_markdown_fences (_strip_markdown_fences text)
        = _strip_markdown_fences text))
  ∧ ((∀ tag inner, ¬ fenced (strip text) tag inner) →
     _strip_markdown_fences text = text
     ∧ _strip_markdown_fences (_strip_markdown_fences text)
       = _strip_markdown_fences text).
Proof.
  split.
  - intros tag inner Hf.
    rewrite (strip_markdown_fences_fenced _ _ _ Hf). split; [done|].
    apply strip_markdown_fences_no_fence.
  - intros Hnot. rewrite (strip_markdown_fences_unfenced _ Hnot).
    split; [done|]. by apply strip_markdown_fences_unfenced.
Qed.

Lemma strip_markdown_fences_spec_witness :
  (_strip_markdown_fences (lit "  " ++ fenced_page ++ nl)
   = lit "<p>hi</p>" ++ nl
   ∧ _strip_markdown_fences (_strip_markdown_fences (lit "  " ++ fenced_page ++ nl))
     = _strip_markdown_fences (lit "  " ++ fenced_page ++ nl))
  ∧ (_strip_markdown_fences (lit "<p>```</p>") = lit "<p>```</p>"
     ∧ _strip_markdown_fences (_strip_markdown_fences (lit "<p>```</p>"))
       = _strip_markdown_fences (lit "<p>```</p>")).
Proof.
  split.
  - destruct (proj1 (strip_markdown_fences_spec (lit "  " ++ fenced_page ++ nl))
                (lit "html") (lit "<p>hi</p>" ++ nl)) as [Hinner Hidem].
    + split; [reflexivity | repeat constructor].
    + split; [exact Hinner | apply Hidem; reflexivity].
  - apply (proj2 (strip_markdown_fences_spec (lit "<p>```</p>"))).
    apply fence_pattern_None; [apply strip_no_trailing | reflexivity].
Defined.

(** C2, counterexample. On a fenced block wrapped in a second fence the
    first application removes the outer fence and the second one the
    inner fence: applying the operation twice differs from applying it
    once. *)
Lemma strip_markdown_fences_not_idempotent :
  _strip_markdown_fences nested_fences = fenced_page ++ nl
  ∧ _strip_markdown_fences (_strip_markdown_fences nested_fences)
    = lit "<p>hi</p>" ++ nl
  ∧ _strip_markdown_fences (_strip_markdown_fences nested_fences)
    ≠ _strip_markdown_fences nested_fences.
Proof. split; [|split]; by vm_compute. Qed.

End FenceStrippingClaims.

(** ** Running [deploy_to_github] *)

Section Deploy.

Implicit Types (w : world) (github_token html_code username repo_name : str).

Lemma guard_nonblank (s : str) :
  ¬ blank s → negb (truthy s) || negb (truthy (strip s)) = false.
Proof.
  intros Hs. destruct (negb (truthy s) || negb (truthy (strip s))) eqn:Hg; [|done].
  by apply guard_blank in Hg.
Qed.

Ltac py_reduce :=
  cbv beta iota zeta delta
    [bind try_except perform raise ret Exception is_GithubException].

(** The upload step, case by case. *)
Lemma push_file_run file_path content commit_message branch w :
  _push_file file_path content commit_message branch w =
  let fetch := GetContents file_path branch in
  let create := CreateFile file_path commit_message content branch in
  match github_get_contents w with
  | inr existing =>
    let update :=
      UpdateFile file_path commit_message content (sha existing) branch in
    match github_update_file w with
    | inr _ => ([fetch; update], inr tt)
    | inl e =>
      if is_GithubException e && (exn_status e =? 404)
      then ([fetch; update; create], github_create_file w)
      else ([fetch; update], inl e)
    end
  | inl e =>
    if is_GithubException e && (exn_status e =? 404)
    then ([fetch; create], github_create_file w)
    else ([fetch], inl e)
  end.
Proof.
  unfold _push_file. py_reduce.
  destruct (github_get_contents w) as [e|existing].
  - destruct e; cbn [exn_status andb app]; try done;
      by destruct (_ =? 404).
  - destruct (github_update_file w) as [e|[]]; [|done].
    destruct e; cbn [exn_status andb app]; try done;
      by destruct (_ =? 404).
Qed.

Lemma deploy_blank_token github_token html_code w :
  blank github_token →
  deploy_to_github github_token html_code w
  = ([], inl (ValueError (lit "GitHub token must not be empty.") None)).
Proof.
  intros Hb. unfold deploy_to_github.
  by rewrite (proj2 (guard_blank github_token) Hb).
Qed.

Lemma deploy_blank_html github_token html_code w :
  ¬ blank github_token → blank html_code →
  deploy_to_github github_token html_code w
  = ([], inl (ValueError (lit "html_code must not be empty.") None)).
Proof.
  intros Hn Hb. unfold deploy_to_github.
  by rewrite (guard_nonblank _ Hn), (proj2 (guard_blank html_code) Hb).
Qed.

Lemma deploy_login_fails github_token html_code w e :
  ¬ blank github_token → ¬ blank html_code →
  github_login w = inl e →
  deploy_to_github github_token html_code w
  = ([GetUserLogin (strip github_token)],
     inl (if is_GithubException e then
            if exn_status e =? 401 then
              PermissionError
                (lit "GitHub token is invalid or expired (401 Unauthorized).")
                (Some e)
            else
              RuntimeError (lit "GitHub authentication failed: " ++ exn_str e)
                (Some e)
          else e)).
Proof.
  intros Ht Hh Hlogin. unfold deploy_to_github.
  rewrite (guard_nonblank _ Ht), (guard_nonblank _ Hh).
  py_reduce. rewrite Hlogin.
  destruct e; cbn [exn_status]; try done; by destruct (_ =? 401).
Qed.

Lemma deploy_resolution_fails github_token html_code w username names_trace e :
  ¬ blank github_token → ¬ blank html_code →
  github_login w = inr username →
  _unique_repo_name REPO_NAME_PREFIX w = (names_trace, inl e) →
  deploy_to_github github_token html_code w
  = (GetUserLogin (strip github_token) :: names_trace, inl e).
Proof.
  intros Ht Hh Hlogin Hname. unfold deploy_to_github.
  rewrite (guard_nonblank _ Ht), (guard_nonblank _ Hh).
  py_reduce. rewrite Hlogin, Hname. done.
Qed.

Lemma deploy_create_fails github_token html_code w username names_trace
    repo_name e :
  ¬ blank github_token → ¬ blank html_code →
  github_login w = inr username →
  _unique_repo_name REPO_NAME_PREFIX w = (names_trace, inr repo_name) →
  github_create_repo w = inl e →
  ∃ e',
    deploy_to_github github_token html_code w
    = (GetUserLogin (strip github_token)
         :: names_trace ++ [create_repo_call username repo_name],
       inl e')
    ∧ (is_GithubException e = true → is_RuntimeError e' = true)
    ∧ (is_GithubException e = false → e' = e).
Proof.
  intros Ht Hh Hlogin Hname Hcreate. unfold deploy_to_github.
  rewrite (guard_nonblank _ Ht), (guard_nonblank _ Hh).
  py_reduce. rewrite Hlogin, Hname. fold (create_repo_call username repo_name).
  rewrite Hcreate.
  destruct e; cbn [exn_status]; try (eexists; split; [reflexivity|by split]).
  destruct (_ =? 422); rewrite app_nil_r; eexists; (split; [reflexivity|by split]).
Qed.

(** From the upload step on. *)
Lemma deploy_after_create github_token html_code w username names_trace
    repo_name repo :
  ¬ blank github_token → ¬ blank html_code →
  github_login w = inr username →
  _unique_repo_name REPO_NAME_PREFIX w = (names_trace, inr repo_name) →
  github_create_repo w = inr repo →
  deploy_to_github github_token html_code w =
  let before :=
    GetUserLogin (strip github_token)
      :: names_trace ++ [create_repo_call username repo_name; Sleep 2] in
  match push_index html_code w with
  | (upload, inl e) =>
    (before ++ upload,
     inl (wrapped_as_runtime (lit "Failed to push index.html: ") e))
  | (upload, inr _) =>
    match github_enable_pages w with
    | inr _ =>
      (before ++ upload ++ [enable_pages_call],
       inr (pages_url_of username repo_name))
    | inl e =>
      if is_GithubException e then
        (before ++ upload
           ++ [enable_pages_call; pages_warning e repo username repo_name],
         inr (pages_url_of username repo_name))
      else (before ++ upload ++ [enable_pages_call], inl e)
    end
  end.
Proof.
  intros Ht Hh Hlogin Hname Hcreate. unfold deploy_to_github.
  rewrite (guard_nonblank _ Ht), (guard_nonblank _ Hh).
  py_reduce. rewrite Hlogin, Hname. fold (create_repo_call username repo_name).
  rewrite Hcreate. fold (push_index html_code).
  destruct (push_index html_code w) as [upload [e|[]]].
  - unfold wrapped_as_runtime.
    destruct e; cbn [app is_GithubException];
      rewrite ?app_nil_r, <- ?app_assoc; reflexivity.
  - fold enable_pages_call. destruct (github_enable_pages w) as [e|[]].
    + destruct e; cbn [app]; rewrite ?app_nil_r, <- ?app_assoc; reflexivity.
    + cbn [app]. rewrite ?app_nil_r, <- ?app_assoc. reflexivity.
Qed.

End Deploy.

(** ** Running [generate_portfolio] *)

Section Generate.

Implicit Types (w : world) (api_key : str) (user_data : gmap str str).

Lemma generate_blank_key api_key user_data w :
  blank api_key →
  generate_portfolio api_key user_data w
  = ([], inl (ValueError (lit "Gemini API key must not be empty.") None)).
Proof.
  intros Hb. unfold generate_portfolio.
  by rewrite (proj2 (guard_blank api_key) Hb).
Qed.

(** With a key that is not blank, exactly one call goes to Gemini, and it
    carries the prompt built from [user_data]. *)
Lemma generate_calls api_key user_data w :
  ¬ blank api_key →
  trace (generate_portfolio api_key user_data w)
  = [Configure (strip api_key);
     GenerateContent GEMINI_MODEL system_prompt MAX_OUTPUT_TOKENS (7 # 10)%Q
       (user_prompt user_data)].
Proof.
  intros Hk. unfold generate_portfolio. rewrite (guard_nonblank _ Hk).
  cbv beta iota zeta delta [bind try_except perform raise ret Exception trace fst].
  destruct (gemini_generate_content w) as [e|response]; [by destruct e|].
  destruct (text response) as [e|raw_text]; [by destruct e|].
  by destruct (negb _).
Qed.

End Generate.

Section InputGuardClaims.

(** C4. A blank [api_key] (empty, or whitespace only) makes
    [generate_portfolio] raise [ValueError] with no call performed at all;
    a blank [github_token] or a blank [html_code] makes [deploy_to_github]
    raise [ValueError] with no call performed at all. *)
Theorem blank_inputs_raise_before_any_call :
  (∀ api_key user_data w,
     blank api_key →
     ∃ msg,
       generate_portfolio api_key user_data w = ([], inl (ValueError msg None)))
  ∧ (∀ github_token html_code w,
       blank github_token ∨ blank html_code →
       ∃ msg,
         deploy_to_github github_token html_code w
         = ([], inl (ValueError msg None))).
Proof.
  split.
  - intros api_key user_data w Hb. eexists. by apply generate_blank_key.
  - intros github_token html_code w Hb.
    destruct (decide (blank github_token)) as [Ht|Ht].
    + eexists. by apply deploy_blank_token.
    + destruct Hb as [Hb|Hb]; [done|]. eexists. by apply deploy_blank_html.
Qed.

Lemma blank_inputs_raise_before_any_call_witness :
  (∃ msg,
     generate_portfolio (lit "   ") ∅ alice_world = ([], inl (ValueError msg None)))
  ∧ (∃ msg,
       deploy_to_github [] (lit "<html></html>") alice_world
       = ([], inl (ValueError msg None)))
  ∧ (∃ msg,
       deploy_to_github (lit "ghp_token") (nl ++ lit " ") alice_world
       = ([], inl (ValueError msg None))).
Proof.
  split; [|split].
  - apply (proj1 blank_inputs_raise_before_any_call). computed.
  - apply (proj2 blank_inputs_raise_before_any_call). left. computed.
  - apply (proj2 blank_inputs_raise_before_any_call). right. computed.
Defined.

End InputGuardClaims.

Section DeployClaims.

Implicit Types (w : world) (github_token html_code username repo_name : str).

Lemma unique_repo_name_calls w prefix repos :
  github_repos w = inr repos →
  ∃ names_trace repo_name,
    _unique_repo_name prefix w = (names_trace, inr repo_name)
    ∧ file_writes names_trace = [].
Proof.
  intros Hrepos. rewrite (unique_repo_name_run _ _ _ Hrepos).
  destruct (probe _ _ _ _); eauto.
Qed.

Lemma file_writes_app calls calls' :
  file_writes (calls ++ calls') = file_writes calls ++ file_writes calls'.
Proof. apply List.filter_app. Qed.

(** X24. As the code is written, when the identity fetch raises, no later
    step runs: the identity fetch is the only call made. A
    [GithubException] with status 401 is raised as [PermissionError], a
    [GithubException] with any other status as [RuntimeError], both with
    the exception as cause; the handler being [except GithubException],
    an exception of another class leaves [deploy_to_github] as it is. *)
Theorem deploy_authentication_failure github_token html_code w e :
  ¬ blank github_token → ¬ blank html_code →
  github_login w = inl e →
  trace (deploy_to_github github_token html_code w)
  = [GetUserLogin (strip github_token)]
  ∧ (is_GithubException e = true → exn_status e = 401 →
     result (deploy_to_github github_token html_code w)
     = inl (PermissionError
              (lit "GitHub token is invalid or expired (401 Unauthorized).")
              (Some e)))
  ∧ (is_GithubException e = true → exn_status e ≠ 401 →
     result (deploy_to_github github_token html_code w)
     = inl (RuntimeError (lit "GitHub authentication failed: " ++ exn_str e)
              (Some e)))
  ∧ (is_GithubException e = false →
     result (deploy_to_github github_token html_code w) = inl e).
Proof.
  intros Ht Hh Hlogin. rewrite (deploy_login_fails _ _ _ _ Ht Hh Hlogin).
  unfold trace, result. cbn [fst snd]. split; [done|].
  split; [|split]; intros Hg; rewrite Hg; [intros ->|intros Hs|]; try done.
  by rewrite (proj2 (Z.eqb_neq _ _) Hs).
Qed.

Lemma deploy_authentication_failure_witness :
  result (deploy_to_github (lit "ghp_token") (lit "<html></html>")
            (with_login (inl unauthorized) alice_world))
  = inl (PermissionError
           (lit "GitHub token is invalid or expired (401 Unauthorized).")
           (Some unauthorized))
  ∧ result (deploy_to_github (lit "ghp_token") (lit "<html></html>")
              (with_login (inl forbidden) alice_world))
    = inl (RuntimeError (lit "GitHub authentication failed: 403 Forbidden")
             (Some forbidden)).
Proof.
  split.
  - refine (proj1 (proj2 (deploy_authentication_failure
                            (lit "ghp_token") (lit "<html></html>")
                            (with_login (inl unauthorized) alice_world)
                            unauthorized _ _ eq_refl)) eq_refl eq_refl);
      computed.
  - refine (proj1 (proj2 (proj2 (deploy_authentication_failure
                                   (lit "ghp_token") (lit "<html></html>")
                                   (with_login (inl forbidden) alice_world)
                                   forbidden _ _ eq_refl))) eq_refl _);
      [computed | computed | discriminate].
Defined.

(** C5, the code at the failing input. The identity fetch fails with a
    connection error, which is no [GithubException]: [deploy_to_github]
    does not raise [RuntimeError], as its docstring promises for any
    failing GitHub call, but lets the connection error out as it is. *)
Lemma deploy_authentication_failure_not_wrapped :
  result (deploy_to_github (lit "ghp_token") (lit "<html></html>")
            (with_login (inl connection_error) alice_world))
  = inl connection_error
  ∧ is_RuntimeError connection_error = false.
Proof. split; by vm_compute. Qed.

(** X25. As the code is written, in a run that reaches the upload step:
    when the fetch of the existing file raises a [GithubException] with
    status 404, the one file-writing call is a create-file call;
    when the fetch succeeds, the first file-writing call is an update-file
    call carrying the hash of the fetched file;
    when the fetch raises a [GithubException] with another status, no file
    is written and [deploy_to_github] raises [RuntimeError] with the
    exception as cause;
    when the fetch raises an exception of another class, no file is written
    and the exception propagates as it is. *)
Theorem deploy_upload_step github_token html_code w username repos repo :
  ¬ blank github_token → ¬ blank html_code →
  github_login w = inr username →
  github_repos w = inr repos →
  github_create_repo w = inr repo →
  (∀ e,
     github_get_contents w = inl e →
     is_GithubException e = true → exn_status e = 404 →
     file_writes (trace (deploy_to_github github_token html_code w))
     = [create_index_call html_code])
  ∧ (∀ existing,
       github_get_contents w = inr existing →
       ∃ later,
         file_writes (trace (deploy_to_github github_token html_code w))
         = update_index_call html_code (sha existing) :: later)
  ∧ (∀ e,
       github_get_contents w = inl e →
       is_GithubException e = true → exn_status e ≠ 404 →
       file_writes (trace (deploy_to_github github_token html_code w)) = []
       ∧ result (deploy_to_github github_token html_code w)
         = inl (RuntimeError (lit "Failed to push index.html: " ++ exn_str e)
                  (Some e)))
  ∧ (∀ e,
       github_get_contents w = inl e →
       is_GithubException e = false →
       file_writes (trace (deploy_to_github github_token html_code w)) = []
       ∧ result (deploy_to_github github_token html_code w) = inl e).
Proof.
  intros Ht Hh Hlogin Hrepos Hcreate.
  destruct (unique_repo_name_calls w REPO_NAME_PREFIX repos Hrepos)
    as (names_trace & repo_name & Hname & Hquiet).
  rewrite (deploy_after_create _ _ _ _ _ _ _ Ht Hh Hlogin Hname Hcreate).
  unfold push_index. rewrite push_file_run. cbv zeta.
  assert (∀ calls,
            file_writes
              ((GetUserLogin (strip github_token)
                  :: names_trace ++ [create_repo_call username repo_name; Sleep 2])
                 ++ calls)
            = file_writes calls) as Hbefore.
  { intros calls. rewrite file_writes_app.
    change (file_writes (?c :: ?l)) with (file_writes l).
    by rewrite file_writes_app, Hquiet. }
  split; [|split; [|split]].
  - intros e -> Hg Hs. rewrite Hg, Hs. cbn [andb Z.eqb Pos.eqb].
    destruct (github_create_file w) as [e'|[]].
    + unfold trace. cbn [fst]. by rewrite Hbefore.
    + destruct (github_enable_pages w) as [e'|[]];
        [destruct (is_GithubException e')|];
        unfold trace; cbn [fst]; by rewrite Hbefore.
  - intros existing ->.
    destruct (github_update_file w) as [e|[]].
    + destruct (is_GithubException e && (exn_status e =? 404)).
      * destruct (github_create_file w) as [e'|[]];
          [|destruct (github_enable_pages w) as [e'|[]];
            [destruct (is_GithubException e')|]];
          unfold trace; cbn [fst]; rewrite Hbefore; eexists; reflexivity.
      * unfold trace. cbn [fst]. rewrite Hbefore. eexists; reflexivity.
    + destruct (github_enable_pages w) as [e'|[]];
        [destruct (is_GithubException e')|];
        unfold trace; cbn [fst]; rewrite Hbefore; eexists; reflexivity.
  - intros e -> Hg Hs. rewrite Hg, (proj2 (Z.eqb_neq _ _) Hs). cbn [andb].
    unfold trace, result, wrapped_as_runtime. cbn [fst snd].
    by rewrite Hbefore, Hg.
  - intros e -> Hg. rewrite Hg. cbn [andb].
    unfold trace, result, wrapped_as_runtime. cbn [fst snd].
    by rewrite Hbefore, Hg.
Qed.

Lemma deploy_upload_step_witness :
  file_writes
    (trace (deploy_to_github (lit "ghp_token") (lit "<html></html>")
              alice_world))
  = [create_index_call (lit "<html></html>")]
  ∧ (∃ later,
       file_writes
         (trace (deploy_to_github (lit "ghp_token") (lit "<html></html>")
                   (with_contents (inr {| sha := lit "3b18e5" |}) alice_world)))
       = update_index_call (lit "<html></html>") (lit "3b18e5") :: later)
  ∧ result (deploy_to_github (lit "ghp_token") (lit "<html></html>")
              (with_contents (inl forbidden) alice_world))
    = inl (RuntimeError (lit "Failed to push index.html: 403 Forbidden")
             (Some forbidden)).
Proof.
  split; [|split].
  - refine (proj1 (deploy_upload_step
                     (lit "ghp_token") (lit "<html></html>") alice_world
                     _ _ _ _ _ eq_refl eq_refl eq_refl)
              not_found eq_refl eq_refl eq_refl); computed.
  - refine (proj1 (proj2 (deploy_upload_step
                     (lit "ghp_token") (lit "<html></html>")
                     (with_contents (inr {| sha := lit "3b18e5" |}) alice_world)
                     _ _ _ _ _ eq_refl eq_refl eq_refl))
              {| sha := lit "3b18e5" |} eq_refl); computed.
  - refine (proj2 (proj1 (proj2 (proj2 (deploy_upload_step
                     (lit "ghp_token") (lit "<html></html>")
                     (with_contents (inl forbidden) alice_world)
                     _ _ _ _ _ eq_refl eq_refl eq_refl)))
              forbidden eq_refl eq_refl _));
      [computed | computed | discriminate].
Defined.

(** C6, the code at the failing input. The fetch of the existing file
    fails with a connection error, which is no [GithubException]:
    [deploy_to_github] does not raise [RuntimeError], as its docstring
    promises for any failing GitHub call, but lets the connection error out
    as it is. *)
Lemma deploy_fetch_failure_not_wrapped :
  result (deploy_to_github (lit "ghp_token") (lit "<html></html>")
            (with_contents (inl connection_error) alice_world))
  = inl connection_error
  ∧ is_RuntimeError connection_error = false.
Proof. split; by vm_compute. Qed.

(** X26. As the code is written, in a run that reaches the
    pages-enablement step a [GithubException] raised by enabling pages is
    not propagated: a warning is printed as the last call and
    [deploy_to_github] returns the URL
    [https://<login>.github.io/<repository name>/]. The handler being
    [except GithubException], an exception of another class raised by
    that step leaves [deploy_to_github] as it is. *)
Theorem deploy_pages_failure github_token html_code w username repos repo
    repo_name upload e :
  ¬ blank github_token → ¬ blank html_code →
  github_login w = inr username →
  github_repos w = inr repos →
  result (_unique_repo_name REPO_NAME_PREFIX w) = inr repo_name →
  github_create_repo w = inr repo →
  push_index html_code w = (upload, inr tt) →
  github_enable_pages w = inl e →
  (is_GithubException e = true →
   result (deploy_to_github github_token html_code w)
   = inr (lit "https://" ++ username ++ lit ".github.io/" ++ repo_name ++ lit "/")
   ∧ ∃ before,
       trace (deploy_to_github github_token html_code w)
       = before ++ [enable_pages_call; pages_warning e repo username repo_name])
  ∧ (is_GithubException e = false →
     result (deploy_to_github github_token html_code w) = inl e).
Proof.
  intros Ht Hh Hlogin Hrepos Hres Hcreate Hpush Hpages.
  destruct (unique_repo_name_calls w REPO_NAME_PREFIX repos Hrepos)
    as (names_trace & repo_name' & Hname & _).
  rewrite Hname in Hres. unfold result in Hres. cbn [snd] in Hres.
  assert (repo_name' = repo_name) as -> by congruence.
  rewrite (deploy_after_create _ _ _ _ _ _ _ Ht Hh Hlogin Hname Hcreate).
  rewrite Hpush, Hpages. cbv zeta. split; intros ->; [|done].
  split; [done|]. unfold trace. cbn [fst].
  eexists. by rewrite app_assoc.
Qed.

Lemma deploy_pages_failure_witness :
  result (deploy_to_github (lit "ghp_token") (lit "<html></html>")
            (with_pages (inl forbidden) alice_world))
  = inr (lit "https://alice.github.io/portfolio-builder-3/").
Proof.
  refine (proj1 (proj1 (deploy_pages_failure
                   (lit "ghp_token") (lit "<html></html>")
                   (with_pages (inl forbidden) alice_world)
                   (lit "alice") _ _ (lit "portfolio-builder-3") _ forbidden
                   _ _ eq_refl eq_refl _ eq_refl _ eq_refl) eq_refl));
    [computed | computed | by vm_compute | by vm_compute].
Defined.

(** C7, the code at the failing input. Enabling pages fails with a
    connection error, which is no [GithubException]: the repository and
    the file exist, yet [deploy_to_github] does not return the URL, as the
    comment in its handler intends, but lets the connection error out. *)
Lemma deploy_pages_failure_propagated :
  result (deploy_to_github (lit "ghp_token") (lit "<html></html>")
            (with_pages (inl connection_error) alice_world))
  = inl connection_error.
Proof. by vm_compute. Qed.

(** C8. Every call of [deploy_to_github] that returns returns exactly
    ["https://" + login + ".github.io/" + name + "/"], where [login] is
    the login the identity fetch answered and [name] the name that name
    resolution returns in the same world, whether enabling pages succeeded
    or raised. *)
Theorem deploy_returns_pages_url github_token html_code w url :
  result (deploy_to_github github_token html_code w) = inr url →
  ∃ username repo_name,
    github_login w = inr username
    ∧ result (_unique_repo_name REPO_NAME_PREFIX w) = inr repo_name
    ∧ url = lit "https://" ++ username ++ lit ".github.io/" ++ repo_name
            ++ lit "/".
Proof.
  destruct (decide (blank github_token)) as [Ht|Ht].
  { by rewrite (deploy_blank_token _ _ _ Ht). }
  destruct (decide (blank html_code)) as [Hh|Hh].
  { by rewrite (deploy_blank_html _ _ _ Ht Hh). }
  destruct (github_login w) as [e|username] eqn:Hlogin.
  { by rewrite (deploy_login_fails _ _ _ _ Ht Hh Hlogin). }
  destruct (_unique_repo_name REPO_NAME_PREFIX w)
    as [names_trace [e|repo_name]] eqn:Hname.
  { by rewrite (deploy_resolution_fails _ _ _ _ _ _ Ht Hh Hlogin Hname). }
  destruct (github_create_repo w) as [e|repo] eqn:Hcreate.
  { destruct (deploy_create_fails _ _ _ _ _ _ _ Ht Hh Hlogin Hname Hcreate)
      as (e' & -> & _). done. }
  rewrite (deploy_after_create _ _ _ _ _ _ _ Ht Hh Hlogin Hname Hcreate).
  cbv zeta. intros Hurl. exists username, repo_name.
  split; [done|]. split; [done|].
  destruct (push_index html_code w) as [upload [e|[]]]; [done|].
  destruct (github_enable_pages w) as [e|[]];
    [destruct (is_GithubException e)|];
    unfold result, pages_url_of in Hurl; cbn [snd] in Hurl; congruence.
Qed.

Lemma deploy_returns_pages_url_witness :
  (∃ username repo_name,
     github_login alice_world = inr username
     ∧ result (_unique_repo_name REPO_NAME_PREFIX alice_world) = inr repo_name
     ∧ lit "https://alice.github.io/portfolio-builder-3/"
       = lit "https://" ++ username ++ lit ".github.io/" ++ repo_name ++ lit "/")
  ∧ (∃ username repo_name,
       github_login (with_pages (inl forbidden) alice_world) = inr username
       ∧ result (_unique_repo_name REPO_NAME_PREFIX
                   (with_pages (inl forbidden) alice_world)) = inr repo_name
       ∧ lit "https://alice.github.io/portfolio-builder-3/"
         = lit "https://" ++ username ++ lit ".github.io/" ++ repo_name
           ++ lit "/").
Proof.
  split.
  - apply (deploy_returns_pages_url (lit "ghp_token") (lit "<html></html>")
             alice_world).
    by vm_compute.
  - apply (deploy_returns_pages_url (lit "ghp_token") (lit "<html></html>")
             (with_pages (inl forbidden) alice_world)).
    by vm_compute.
Defined.

End DeployClaims.

(** ** Lines *)

Section Lines.

Implicit Types (s t cur : str) (c : char).

Lemma lstrip_idem s : lstrip (lstrip s) = lstrip s.
Proof.
  destruct (lstrip s) as [|c t] eqn:Hs; [done|].
  apply lstrip_id. by apply lstrip_head in Hs.
Qed.

Lemma rstrip_idem s : rstrip (rstrip s) = rstrip s.
Proof. unfold rstrip. by rewrite rev_involutive, lstrip_idem. Qed.

Lemma lstrip_snoc s c : is_space c = false → lstrip (s ++ [c]) = lstrip s ++ [c].
Proof.
  intros Hc. induction s as [|d s IH]; cbn [app lstrip].
  - by rewrite Hc.
  - by destruct (is_space d).
Qed.

Lemma rstrip_cons c s : is_space c = false → rstrip (c :: s) = c :: rstrip s.
Proof.
  intros Hc. unfold rstrip. cbn [rev]. rewrite (lstrip_snoc _ _ Hc).
  by rewrite rev_app_distr.
Qed.

(** [s.strip()] is trimmed: stripping it again changes nothing. *)
Lemma strip_idem s : strip (strip s) = strip s.
Proof.
  unfold strip. destruct (lstrip s) as [|c t] eqn:Hs; [done|].
  apply lstrip_head in Hs. rewrite (rstrip_cons _ _ Hs), (lstrip_id _ _ Hs).
  by rewrite <- (rstrip_cons _ _ Hs), rstrip_idem.
Qed.

Lemma truthy_strip s : truthy (strip s) = true ↔ ¬ blank s.
Proof.
  rewrite <- strip_blank. destruct (strip s); cbn [truthy]; split; done.
Qed.

Lemma one_line_app s t : one_line (s ++ t) ↔ one_line s ∧ one_line t.
Proof. apply Forall_app. Qed.

Lemma one_line_strip s : one_line s → one_line (strip s).
Proof.
  intros Hs. destruct (strip_split s) as (a & b & Heq & _).
  rewrite Heq in Hs. by apply one_line_app in Hs as [_ [? _]%one_line_app].
Qed.

(** Reading on within a line. *)
Lemma splitlines_from_one_line cur s t :
  one_line s → splitlines_from cur (s ++ t) = splitlines_from (cur ++ s) t.
Proof.
  intros Hs. revert cur. induction Hs as [|c s Hc _ IH]; intros cur.
  - by rewrite app_nil_r.
  - cbn [app splitlines_from]. rewrite Hc, IH. by rewrite <- app_assoc.
Qed.

(** Every line [splitlines] produces is free of line boundaries. *)
Lemma splitlines_from_lines s : ∀ cur,
  one_line cur → Forall one_line (splitlines_from cur s).
Proof.
  induction s as [s IH] using (induction_ltof1 _ (@List.length char)).
  unfold ltof in IH. intros cur Hcur. destruct s as [|c s]; cbn [splitlines_from].
  - destruct cur; [constructor | constructor; [exact Hcur | constructor]].
  - destruct (is_linebreak c) eqn:Hc.
    + constructor; [done|]. destruct (c =? 13)%N.
      * destruct s as [|d s].
        -- apply IH; [cbn; lia | constructor].
        -- destruct (d =? 10)%N; apply IH; try (cbn; lia); constructor.
      * apply IH; [cbn; lia | constructor].
    + apply IH; [cbn; lia|]. apply one_line_app. split; [done|].
      by repeat constructor.
Qed.

Lemma splitlines_lines s : Forall one_line (splitlines s).
Proof. apply splitlines_from_lines. constructor. Qed.

(** Joining lines with a newline and splitting again gives the lines. *)
Lemma splitlines_join (lines : list str) :
  Forall (λ line, one_line line ∧ line ≠ []) lines →
  splitlines (join nl lines) = lines.
Proof.
  unfold splitlines. induction 1 as [|line lines [Hline Hne] Hlines IH]; [done|].
  destruct lines as [|line' lines].
  - cbn [join]. rewrite <- (app_nil_r line) at 1.
    rewrite (splitlines_from_one_line [] line [] Hline). cbn [app splitlines_from].
    by destruct line.
  - change (join nl (line :: line' :: lines))
      with (line ++ nl ++ join nl (line' :: lines)).
    rewrite (splitlines_from_one_line [] line _ Hline).
    cbn [app nl splitlines_from]. change (is_linebreak 10%N) with true.
    change (10 =? 13)%N with false. cbv iota. by rewrite IH.
Qed.

End Lines.

(** ** The prompt *)

Section Prompt.

Implicit Types (user_data : gmap str str) (s t : str).

Lemma lstrip_newline_then s t :
  starts_nonspace s = true → lstrip (nl ++ s ++ t) = s ++ t.
Proof.
  intros Hs. destruct s as [|c s]; [done|]. cbn [starts_nonspace] in Hs.
  cbn [nl app lstrip]. change (is_space 10%N) with true. cbv iota.
  by destruct (is_space c).
Qed.

Lemma rstrip_then_newline s t :
  ends_nonspace t = true → rstrip ((s ++ t) ++ nl) = s ++ t.
Proof.
  unfold ends_nonspace, rstrip. intros Ht.
  rewrite !rev_app_distr. cbn [nl rev app lstrip].
  change (is_space 10%N) with true. cbv iota.
  destruct (rev t) as [|c u] eqn:Hrev; [done|]. cbn [starts_nonspace] in Ht.
  cbn [app lstrip]. destruct (is_space c); [done|].
  change (c :: u ++ rev s) with ((c :: u) ++ rev s).
  by rewrite <- Hrev, <- rev_app_distr, rev_involutive.
Qed.

(** The outer [.strip()] of the prompt removes the newline after the
    opening quotes and the one before the closing quotes, nothing else. *)
Lemma user_prompt_template user_data :
  user_prompt user_data
  = prompt_template
      (strip (get user_data (lit "bio") []))
      (links_formatted user_data)
      (get user_data (lit "color_theme") (lit "Dark & Minimal"))
      (get user_data (lit "layout_style") (lit "Single Page"))
      (or_else (strip (get user_data (lit "aesthetic_notes") []))
         (lit "(none)")).
Proof.
  unfold user_prompt, prompt_template.
  generalize (strip (get user_data (lit "bio") [])).
  generalize (links_formatted user_data).
  generalize (get user_data (lit "color_theme") (lit "Dark & Minimal")).
  generalize (get user_data (lit "layout_style") (lit "Single Page")).
  generalize (or_else (strip (get user_data (lit "aesthetic_notes") []))
                (lit "(none)")).
  intros extra_notes layout_style color_theme links_block bio.
  unfold strip. rewrite lstrip_newline_then by reflexivity.
  rewrite !app_assoc. rewrite rstrip_then_newline by reflexivity.
  reflexivity.
Qed.

Lemma bullet_line url :
  one_line url → one_line (bullet url) ∧ bullet url ≠ [].
Proof.
  intros Hurl. split; [|done]. unfold bullet.
  apply one_line_app. split; [by repeat constructor|].
  apply one_line_app. split; [by repeat constructor|].
  apply one_line_app. split; [by repeat constructor|].
  by apply one_line_strip.
Qed.

Lemma links_formatted_join user_data :
  links_formatted user_data
  = or_else (join nl (map bullet (link_lines user_data)))
      (lit "  (none provided)").
Proof.
  unfold links_formatted, link_lines. do 3 f_equal.
  apply list_filter_iff. intros line. apply truthy_strip.
Qed.

End Prompt.

Section PromptClaims.

Implicit Types (user_data : gmap str str).

(** C9. The links section of the prompt, the text between the line
    [=== LINKS ===] and the blank line before [=== DESIGN PREFERENCES ===],
    is the block [links_formatted].
    When the links field has lines that are not blank, the block has one
    line per such line, in order: two spaces, a bullet, a space and the
    line trimmed of surrounding whitespace. When the field has no such
    line, or the field is absent, the block is ["  (none provided)"]. *)
Theorem links_section_bullets user_data :
  (∃ bio color_theme layout_style extra_notes,
     user_prompt user_data
     = prompt_template bio (links_formatted user_data) color_theme layout_style
         extra_notes)
  ∧ (link_lines user_data ≠ [] →
     splitlines (links_formatted user_data)
     = map (λ line, lit "  " ++ [8226%N] ++ lit " " ++ strip line)
         (link_lines user_data)
     ∧ Forall (λ line, strip (strip line) = strip line ∧ strip line ≠ [])
         (link_lines user_data))
  ∧ (link_lines user_data = [] →
     links_formatted user_data = lit "  (none provided)")
  ∧ (user_data !! lit "links" = None →
     links_formatted user_data = lit "  (none provided)").
Proof.
  split; [|split; [|split]].
  - rewrite user_prompt_template. by eexists _, _, _, _.
  - intros Hlines. rewrite links_formatted_join.
    assert (Forall (λ line, one_line line ∧ ¬ blank line) (link_lines user_data))
      as Hall.
    { apply Forall_forall. intros line [Hnb Hin]%list_elem_of_filter. split; [|done].
      pose proof (splitlines_lines (get user_data (lit "links") [])) as Hl.
      rewrite Forall_forall in Hl. by apply Hl. }
    split.
    + destruct (link_lines user_data) as [|line lines]; [done|].
      unfold or_else.
      destruct (join nl (map bullet (line :: lines))) as [|c joined] eqn:Hj.
      { destruct lines; discriminate Hj. }
      cbn [truthy]. rewrite <- Hj. apply splitlines_join.
      apply Forall_map. eapply Forall_impl; [exact Hall|].
      intros l [Hl _]. by apply bullet_line.
    + eapply Forall_impl; [exact Hall|]. intros line [_ Hnb].
      split; [apply strip_idem | by rewrite strip_blank].
  - intros Hnone. by rewrite links_formatted_join, Hnone.
  - intros Hnone. unfold links_formatted, get. by rewrite Hnone.
Qed.

Lemma links_section_bullets_witness :
  splitlines (links_formatted example_profile)
  = [lit "  " ++ [8226%N] ++ lit " https://github.com/x";
     lit "  " ++ [8226%N] ++ lit " https://linkedin.com/in/x"]
  ∧ links_formatted (<[lit "links" := lit "  " ++ nl]> ∅)
    = lit "  (none provided)"
  ∧ links_formatted ∅ = lit "  (none provided)".
Proof.
  split; [|split].
  - destruct (proj1 (proj2 (links_section_bullets example_profile)))
      as [Hsplit _].
    + by vm_compute.
    + rewrite Hsplit. by vm_compute.
  - apply (proj1 (proj2 (proj2 (links_section_bullets
                                  (<[lit "links" := lit "  " ++ nl]> ∅))))).
    by vm_compute.
  - apply (proj2 (proj2 (proj2 (links_section_bullets ∅)))). by vm_compute.
Defined.

Lemma get_any_lookup (user_data : gmap str value) (key : str)
    (fallback : value) :
  get_any user_data key fallback = default fallback (user_data !! key).
Proof. reflexivity. Qed.

(** The prompt of a dictionary whose text fields, when present, are
    strings: the outer [.strip()] resolved. *)
Lemma build_user_prompt_template (user_data : gmap str value)
    (bio links aesthetic_notes : option str) :
  user_data !! lit "bio" = Str <$> bio →
  user_data !! lit "links" = Str <$> links →
  user_data !! lit "aesthetic_notes" = Str <$> aesthetic_notes →
  build_user_prompt user_data
  = inr (prompt_template
           (strip (default [] bio))
           (links_block (default [] links))
           (format_value
              (default (Str (lit "Dark & Minimal"))
                 (user_data !! lit "color_theme")))
           (format_value
              (default (Str (lit "Single Page"))
                 (user_data !! lit "layout_style")))
           (or_else (strip (default [] aesthetic_notes)) (lit "(none)"))).
Proof.
  intros Hbio Hlinks Hnotes.
  unfold build_user_prompt, links_formatted_any, user_prompt_any.
  rewrite !get_any_lookup, Hbio, Hlinks, Hnotes.
  assert (∀ o : option str,
            default (Str []) (Str <$> o) = Str (default [] o)) as Hdefault.
  { by intros []. }
  rewrite !Hdefault. cbn [splitlines_of strip_of]. cbv zeta. f_equal.
  replace (filter (λ url, truthy (strip url) = true)
             (splitlines (default [] links)))
    with (filter (λ line, ¬ blank line) (splitlines (default [] links)))
    by (apply list_filter_iff; intros line; symmetry; apply truthy_strip).
  fold (links_block (default [] links)).
  unfold prompt_template.
  generalize (strip (default [] bio)).
  generalize (links_block (default [] links)).
  generalize (format_value
                (default (Str (lit "Dark & Minimal"))
                   (user_data !! lit "color_theme"))).
  generalize (format_value
                (default (Str (lit "Single Page"))
                   (user_data !! lit "layout_style"))).
  generalize (or_else (strip (default [] aesthetic_notes)) (lit "(none)")).
  intros extra_notes layout_style color_theme block bio_text.
  unfold strip. rewrite lstrip_newline_then by reflexivity.
  rewrite !app_assoc. rewrite rstrip_then_newline by reflexivity.
  reflexivity.
Qed.


(** On a dictionary whose values are all strings the two embeddings of
    [generate_portfolio] agree. *)
Lemma build_user_prompt_str (user_data : gmap str str) :
  build_user_prompt (Str <$> user_data) = inr (user_prompt user_data).
Proof.
  rewrite (build_user_prompt_template _ (user_data !! lit "bio")
             (user_data !! lit "links") (user_data !! lit "aesthetic_notes"))
    by apply lookup_fmap.
  rewrite user_prompt_template, links_formatted_join, !lookup_fmap.
  unfold get, link_lines, links_block.
  by destruct (user_data !! lit "color_theme"),
    (user_data !! lit "layout_style").
Qed.

Lemma generate_portfolio_any_str (api_key : str) (user_data : gmap str str)
    (w : world) :
  generate_portfolio_any api_key (Str <$> user_data) w
  = generate_portfolio api_key user_data w.
Proof.
  pose proof (build_user_prompt_str user_data) as Hprompt.
  unfold build_user_prompt in Hprompt.
  unfold generate_portfolio_any, generate_portfolio.
  destruct (negb (truthy api_key) || negb (truthy (strip api_key))); [done|].
  unfold bind, evaluate. cbn [perform].
  destruct (links_formatted_any (Str <$> user_data)) as [exc|block]; [done|].
  rewrite Hprompt.
  match goal with
  | |- _ = (let (_, _) := ?rest in _) => by destruct rest
  end.
Qed.




End PromptClaims.

(** * Further properties of the code *)

(** ** Name resolution, continued *)

Section NameResolutionMore.

Implicit Types (w : world) (prefix name : str) (repos : list str).

(** The loop over [a, a+1, ...]: with the current candidate and the names
    [prefix-a] ... [prefix-(k-1)] taken and [prefix-k] free, the loop
    returns [prefix-k], provided [k] is tested at all. *)
Lemma probe_first_free (existing_names : gset str) prefix (k : nat) :
  ∀ (n a : nat) (candidate : str),
    candidate ∈ existing_names →
    (a ≤ k)%nat → (k + 1 < a + n)%nat →
    (∀ i : nat, (a ≤ i < k)%nat →
                suffixed prefix (Z.of_nat i) ∈ existing_names) →
    suffixed prefix (Z.of_nat k) ∉ existing_names →
    probe existing_names prefix candidate (map Z.of_nat (seq a n))
    = inl (suffixed prefix (Z.of_nat k)).
Proof.
  induction n as [|n IH]; intros a candidate Hc Hak Hkn Htaken Hfree; [lia|].
  cbn [seq map probe]. rewrite bool_decide_eq_false_2; [|by intros ?].
  destruct (decide (a = k)) as [->|Hne].
  - destruct n as [|n]; [lia|]. cbn [seq map probe].
    by rewrite bool_decide_eq_true_2.
  - apply IH; [apply Htaken; lia | lia | lia | | done].
    intros i Hi. apply Htaken. lia.
Qed.

(** X1. When the listing succeeds, name resolution returns the first free
    name in the order [prefix], [prefix-2], [prefix-3], ...: [prefix] itself
    when it is free, and [prefix-k], for [k] from 2 to 98, when [prefix]
    and every [prefix-i] with [i] below [k] are taken and [prefix-k] is
    free. In both cases the listing is the only call made. *)
Theorem unique_repo_name_first_free w prefix repos :
  github_repos w = inr repos →
  (prefix ∉ (list_to_set repos : gset str) →
   _unique_repo_name prefix w = ([GetRepos], inr prefix))
  ∧ (∀ k : Z,
       2 ≤ k ≤ 98 →
       prefix ∈ (list_to_set repos : gset str) →
       (∀ i : Z, 2 ≤ i < k →
                 suffixed prefix i ∈ (list_to_set repos : gset str)) →
       suffixed prefix k ∉ (list_to_set repos : gset str) →
       _unique_repo_name prefix w = ([GetRepos], inr (suffixed prefix k))).
Proof.
  intros Hrepos. rewrite (unique_repo_name_run _ _ _ Hrepos). split.
  - intros Hfree. unfold range_2_100. cbn [seq map probe].
    by rewrite bool_decide_eq_true_2.
  - intros k Hk Hprefix Htaken Hfree.
    unfold range_2_100.
    rewrite (probe_first_free _ prefix (Z.to_nat k) 98 2 prefix); try done; try lia.
    + by rewrite Z2Nat.id by lia.
    + intros i Hi. apply Htaken. lia.
    + by rewrite Z2Nat.id by lia.
Qed.

Lemma unique_repo_name_first_free_witness :
  _unique_repo_name REPO_NAME_PREFIX
    (account_world (lit "alice") [lit "unrelated"] 1700000000)
  = ([GetRepos], inr (lit "portfolio-builder"))
  ∧ _unique_repo_name REPO_NAME_PREFIX
      (account_world (lit "alice")
         [lit "portfolio-builder-2"; lit "portfolio-builder";
          lit "portfolio-builder-4"] 1700000000)
    = ([GetRepos], inr (lit "portfolio-builder-3")).
Proof.
  split.
  - apply (proj1 (unique_repo_name_first_free
                    (account_world (lit "alice") [lit "unrelated"] 1700000000)
                    REPO_NAME_PREFIX [lit "unrelated"] eq_refl)).
    computed.
  - apply (proj2 (unique_repo_name_first_free
                    (account_world (lit "alice")
                       [lit "portfolio-builder-2"; lit "portfolio-builder";
                        lit "portfolio-builder-4"] 1700000000)
                    REPO_NAME_PREFIX
                    [lit "portfolio-builder-2"; lit "portfolio-builder";
                     lit "portfolio-builder-4"] eq_refl) 3).
    + lia.
    + computed.
    + intros i Hi. assert (i = 2) as -> by lia. computed.
    + computed.
Defined.

(** X2. When the listing succeeds, the resolved name is [prefix], or
    [prefix-k] with [k] from 2 to 98, or [prefix-<clock>]: it always starts
    with the prefix. *)
Theorem unique_repo_name_shape w prefix repos :
  github_repos w = inr repos →
  ∃ name,
    result (_unique_repo_name prefix w) = inr name
    ∧ (name = prefix
       ∨ (∃ k : Z, 2 ≤ k ≤ 98 ∧ name = suffixed prefix k)
       ∨ name = suffixed prefix (clock w))
    ∧ prefix `prefix_of` name.
Proof.
  intros Hrepos. rewrite (unique_repo_name_run _ _ _ Hrepos).
  destruct (probe _ _ _ _) as [name|last] eqn:Hprobe.
  - exists name. split; [done|].
    apply probe_returns in Hprobe as (_ & before & after & Hprobed & _).
    assert (name ∈ probed prefix prefix range_2_100) as Hin.
    { rewrite Hprobed. apply elem_of_app. right. by left. }
    rewrite probed_range in Hin.
    apply elem_of_cons in Hin as [->|Hin].
    + split; [by left | done].
    + apply list_elem_of_fmap in Hin as (k & -> & Hk).
      apply list_elem_of_fmap in Hk as (i & -> & Hi).
      apply elem_of_seq in Hi. split.
      * right. left. exists (Z.of_nat i). split; [lia | done].
      * by exists (lit "-" ++ str_of_int (Z.of_nat i)).
  - exists (suffixed prefix (clock w)). split; [done|]. split.
    + by right; right.
    + by exists (lit "-" ++ str_of_int (clock w)).
Qed.

Lemma unique_repo_name_shape_witness :
  ∃ name,
    result (_unique_repo_name REPO_NAME_PREFIX alice_world) = inr name
    ∧ (name = REPO_NAME_PREFIX
       ∨ (∃ k : Z, 2 ≤ k ≤ 98 ∧ name = suffixed REPO_NAME_PREFIX k)
       ∨ name = suffixed REPO_NAME_PREFIX (clock alice_world))
    ∧ REPO_NAME_PREFIX `prefix_of` name.
Proof.
  exact (unique_repo_name_shape alice_world REPO_NAME_PREFIX
           [lit "portfolio-builder"; lit "portfolio-builder-2"] eq_refl).
Defined.

(** X3. When the listing succeeds, the clock is read exactly when all 98
    probed names are taken, and then the result is [prefix-<clock>]. *)
Theorem unique_repo_name_clock w prefix repos :
  github_repos w = inr repos →
  (Forall (λ n, n ∈ (list_to_set repos : gset str))
     (probed prefix prefix range_2_100) →
   _unique_repo_name prefix w
   = ([GetRepos; TimeNow], inr (suffixed prefix (clock w))))
  ∧ (¬ Forall (λ n, n ∈ (list_to_set repos : gset str))
       (probed prefix prefix range_2_100) →
     trace (_unique_repo_name prefix w) = [GetRepos]).
Proof.
  intros Hrepos. rewrite (unique_repo_name_run _ _ _ Hrepos). split.
  - intros Hall. by destruct (probe_all_taken _ _ _ _ Hall) as [last ->].
  - intros Hsome. destruct (probe _ _ _ _) as [name|last] eqn:Hprobe; [done|].
    destruct Hsome. by eapply probe_exhausted.
Qed.

Lemma unique_repo_name_clock_witness :
  _unique_repo_name REPO_NAME_PREFIX
    (account_world (lit "alice") names_up_to_98 1700000000)
  = ([GetRepos; TimeNow], inr (suffixed REPO_NAME_PREFIX 1700000000))
  ∧ trace (_unique_repo_name REPO_NAME_PREFIX alice_world) = [GetRepos].
Proof.
  split.
  - apply (proj1 (unique_repo_name_clock
                    (account_world (lit "alice") names_up_to_98 1700000000)
                    REPO_NAME_PREFIX names_up_to_98 eq_refl)).
    rewrite names_up_to_98_probed. apply Forall_forall. intros n Hn.
    by apply elem_of_list_to_set.
  - apply (proj2 (unique_repo_name_clock alice_world REPO_NAME_PREFIX
                    [lit "portfolio-builder"; lit "portfolio-builder-2"]
                    eq_refl)).
    intros Hall. rewrite names_up_to_98_probed in Hall.
    rewrite Forall_forall in Hall.
    assert (lit "portfolio-builder-3"
              ∈ (list_to_set [lit "portfolio-builder"; lit "portfolio-builder-2"]
                 : gset str)) as Hin.
    { apply Hall. computed. }
    revert Hin. computed.
Defined.

End NameResolutionMore.

(** ** Fence stripping, continued *)

Section FenceStrippingMore.

Implicit Types (text s tag inner : str).

(** Group 1 of a match, read back: the trimmed text is a fenced block. *)
Lemma strip_markdown_fences_cases text :
  _strip_markdown_fences text = text
  ∨ ∃ tag, fenced (strip text) tag (_strip_markdown_fences text).
Proof.
  unfold _strip_markdown_fences.
  destruct (fence_pattern (strip text)) as [g|] eqn:Hm; [|by left].
  right. apply fence_pattern_Some; [apply strip_no_trailing | done].
Qed.

(** X4. The result of fence stripping is a contiguous part of its input:
    nothing is added or reordered, and the result is never longer than
    the input. *)
Theorem strip_markdown_fences_part text :
  (∃ before after, text = before ++ _strip_markdown_fences text ++ after)
  ∧ (List.length (_strip_markdown_fences text) ≤ List.length text)%nat.
Proof.
  assert (∃ before after, text = before ++ _strip_markdown_fences text ++ after)
    as Hpart.
  { destruct (strip_markdown_fences_cases text) as [->|[tag [Hf _]]].
    - exists [], []. by rewrite app_nil_r.
    - destruct (strip_split text) as (a & b & Htext & _).
      exists (a ++ fence ++ tag ++ nl), (fence ++ b).
      rewrite Htext at 1. rewrite Hf. by rewrite <- !app_assoc. }
  split; [done|]. destruct Hpart as (before & after & Heq).
  rewrite Heq at 2. rewrite !List.length_app. lia.
Qed.

(** X5. Fence stripping changes its input only when the trimmed input both
    starts and ends with three backticks: a response that, trimmed, does
    not start with a fence, or does not end with one, is returned as it
    is, surrounding whitespace included. *)
Theorem strip_markdown_fences_needs_both_fences text :
  ¬ fence `prefix_of` strip text ∨ ¬ fence `suffix_of` strip text →
  _strip_markdown_fences text = text.
Proof.
  intros Hnot. destruct (strip_markdown_fences_cases text) as [|[tag [Hf _]]];
    [done|].
  destruct Hnot as [[]|[]].
  - rewrite Hf. by eexists.
  - rewrite Hf. exists (fence ++ tag ++ nl ++ _strip_markdown_fences text).
    by rewrite <- !app_assoc.
Qed.

Lemma strip_markdown_fences_needs_both_fences_witness :
  _strip_markdown_fences
    (lit "<!DOCTYPE html>" ++ nl ++ lit "<pre>```</pre>" ++ nl)
  = lit "<!DOCTYPE html>" ++ nl ++ lit "<pre>```</pre>" ++ nl
  ∧ _strip_markdown_fences
      (lit "```html" ++ nl ++ lit "<p>hi</p>" ++ nl ++ lit "``` Enjoy!")
    = lit "```html" ++ nl ++ lit "<p>hi</p>" ++ nl ++ lit "``` Enjoy!".
Proof.
  split.
  - apply strip_markdown_fences_needs_both_fences. left. computed.
  - apply strip_markdown_fences_needs_both_fences. right. computed.
Defined.

(** The tag of a fenced block is its first line after the fence. *)
Lemma tag_line_unique (tag tag' : str) (rest rest' : str) :
  tag ++ nl ++ rest = tag' ++ nl ++ rest' →
  Forall (λ c, is_ascii_letter c = true) tag →
  10%N ∉ tag' →
  tag = tag'.
Proof.
  intros Heq Htag. revert tag' Heq.
  induction Htag as [|c tag Hc _ IH]; intros tag' Heq Hnl.
  - destruct tag' as [|d tag']; [done|]. injection Heq as <- _.
    destruct Hnl. by left.
  - destruct tag' as [|d tag'].
    + injection Heq as -> _. done.
    + injection Heq as <- Heq. f_equal. apply IH; [done|].
      intros Hin. apply Hnl. by right.
Qed.

(** X6. Only a tag of ASCII letters is recognised: when the first line of
    the trimmed input, after the three backticks, has a character that is
    not an ASCII letter (a digit, [+], [-], a space), the input is
    returned as it is. *)
Theorem strip_markdown_fences_tag_letters text tag rest :
  strip text = fence ++ tag ++ nl ++ rest →
  10%N ∉ tag →
  ¬ Forall (λ c, is_ascii_letter c = true) tag →
  _strip_markdown_fences text = text.
Proof.
  intros Htext Hline Hletters.
  destruct (strip_markdown_fences_cases text) as [|[tag' [Hf Htag']]]; [done|].
  destruct Hletters. rewrite Htext in Hf. apply app_inv_head in Hf.
  by rewrite <- (tag_line_unique _ _ _ _ (eq_sym Hf) Htag' Hline).
Qed.

Lemma strip_markdown_fences_tag_letters_witness :
  _strip_markdown_fences (lit "```html5" ++ nl ++ lit "<p>hi</p>" ++ nl ++ lit "```")
  = lit "```html5" ++ nl ++ lit "<p>hi</p>" ++ nl ++ lit "```"
  ∧ _strip_markdown_fences (lit "``` html" ++ nl ++ lit "<p>hi</p>" ++ nl ++ lit "```")
    = lit "``` html" ++ nl ++ lit "<p>hi</p>" ++ nl ++ lit "```".
Proof.
  split.
  - apply (strip_markdown_fences_tag_letters _ (lit "html5")
             (lit "<p>hi</p>" ++ nl ++ lit "```")).
    + reflexivity.
    + computed.
    + computed.
  - apply (strip_markdown_fences_tag_letters _ (lit " html")
             (lit "<p>hi</p>" ++ nl ++ lit "```")).
    + reflexivity.
    + computed.
    + computed.
Defined.

End FenceStrippingMore.

(** ** [generate_portfolio], continued *)

Section GenerateMore.

Implicit Types (w : world) (api_key html raw_text : str)
  (user_data : gmap str str).

(** [generate_portfolio] past its guard, case by case. *)
Lemma generate_run api_key user_data w :
  ¬ blank api_key →
  generate_portfolio api_key user_data w =
  (generate_calls_of api_key user_data,
   match gemini_generate_content w with
   | inl e =>
     inl (if Exception e then
            RuntimeError
              (lit "Gemini API call failed: " ++ exn_str e ++ nl
               ++ lit "Check your API key, quota, and network connection.")
              (Some e)
          else e)
   | inr response =>
     match text response with
     | inl e =>
       inl (if Exception e then
              ValueError
                (lit "Gemini returned no usable content. "
                 ++ lit "Finish reason: "
                 ++ default (lit "unknown") (finish_reason response)
                 ++ lit ". "
                 ++ lit "Detail: " ++ exn_str e)
                (Some e)
            else e)
     | inr raw_text =>
       if truthy (strip (_strip_markdown_fences raw_text))
       then inr (_strip_markdown_fences raw_text)
       else inl (ValueError (lit "Gemini returned an empty HTML response.") None)
     end
   end).
Proof.
  intros Hk. unfold generate_portfolio, generate_calls_of.
  rewrite (guard_nonblank _ Hk).
  cbv beta iota zeta delta [bind try_except perform raise ret].
  destruct (gemini_generate_content w) as [e|response].
  { by destruct (Exception e). }
  destruct (text response) as [e|raw_text].
  { by destruct (Exception e). }
  by destruct (truthy _).
Qed.

(** X7. With a key that is not blank, when the remote generation call
    raises an exception that derives from [Exception], of whatever class,
    [generate_portfolio] raises [RuntimeError] with that exception as cause
    and its text in the message; an exception that derives from
    [BaseException] only ([KeyboardInterrupt], [SystemExit]) is not caught
    and leaves [generate_portfolio] as it is. Either way exactly the
    configuration and the one generation call have been made. *)
Theorem generate_remote_failure api_key user_data w e :
  ¬ blank api_key →
  gemini_generate_content w = inl e →
  (Exception e = true →
   generate_portfolio api_key user_data w
   = (generate_calls_of api_key user_data,
      inl (RuntimeError
             (lit "Gemini API call failed: " ++ exn_str e ++ nl
              ++ lit "Check your API key, quota, and network connection.")
             (Some e))))
  ∧ (Exception e = false →
     generate_portfolio api_key user_data w
     = (generate_calls_of api_key user_data, inl e)).
Proof.
  intros Hk He. rewrite (generate_run _ _ _ Hk), He.
  split; by intros ->.
Qed.

Lemma generate_remote_failure_witness :
  result (generate_portfolio (lit "AIza-key") example_profile
            (with_generation (inl connection_error) alice_world))
  = inl (RuntimeError
           (lit "Gemini API call failed: Connection refused" ++ nl
            ++ lit "Check your API key, quota, and network connection.")
           (Some connection_error))
  ∧ result (generate_portfolio (lit "AIza-key") example_profile
              (with_generation (inl keyboard_interrupt) alice_world))
    = inl keyboard_interrupt.
Proof.
  split.
  - refine (f_equal snd
              (proj1 (generate_remote_failure (lit "AIza-key") example_profile
                        (with_generation (inl connection_error) alice_world)
                        connection_error _ eq_refl) eq_refl)).
    computed.
  - refine (f_equal snd
              (proj2 (generate_remote_failure (lit "AIza-key") example_profile
                        (with_generation (inl keyboard_interrupt) alice_world)
                        keyboard_interrupt _ eq_refl) eq_refl)).
    computed.
Defined.

(** X8. When the response has no text ([response.text] raises an
    exception that derives from [Exception]), [generate_portfolio] raises
    [ValueError] with that exception as cause; the message gives the
    finish reason of the first candidate, or [unknown] when the response
    has no candidate. An exception that derives from [BaseException] only
    is not caught and leaves [generate_portfolio] as it is. *)
Theorem generate_no_text api_key user_data w response e :
  ¬ blank api_key →
  gemini_generate_content w = inr response →
  text response = inl e →
  (Exception e = true →
   ∃ reason,
     generate_portfolio api_key user_data w
     = (generate_calls_of api_key user_data,
        inl (ValueError
               (lit "Gemini returned no usable content. Finish reason: "
                ++ reason ++ lit ". Detail: " ++ exn_str e)
               (Some e)))
     ∧ (∀ r, finish_reason response = Some r → reason = r)
     ∧ (finish_reason response = None → reason = lit "unknown"))
  ∧ (Exception e = false →
     generate_portfolio api_key user_data w
     = (generate_calls_of api_key user_data, inl e)).
Proof.
  intros Hk Hresp Htext. rewrite (generate_run _ _ _ Hk), Hresp, Htext.
  split; intros ->; [|done].
  exists (default (lit "unknown") (finish_reason response)). split.
  - reflexivity.
  - split; [by intros r -> | by intros ->].
Qed.

Lemma generate_no_text_witness :
  (∃ reason,
     generate_portfolio (lit "AIza-key") example_profile
       (with_generation
          (inr {| text := inl (OtherError (lit "ValueError") (lit "no parts"));
                  finish_reason := None |})
          alice_world)
     = (generate_calls_of (lit "AIza-key") example_profile,
        inl (ValueError
               (lit "Gemini returned no usable content. Finish reason: "
                ++ reason ++ lit ". Detail: "
                ++ exn_str (OtherError (lit "ValueError") (lit "no parts")))
               (Some (OtherError (lit "ValueError") (lit "no parts")))))
     ∧ reason = lit "unknown")
  ∧ result (generate_portfolio (lit "AIza-key") example_profile
              (with_generation
                 (inr {| text := inl keyboard_interrupt;
                         finish_reason := Some (lit "STOP") |})
                 alice_world))
    = inl keyboard_interrupt.
Proof.
  split.
  - destruct (proj1 (generate_no_text (lit "AIza-key") example_profile
                       (with_generation
                          (inr {| text := inl (OtherError (lit "ValueError")
                                                 (lit "no parts"));
                                  finish_reason := None |})
                          alice_world)
                       {| text := inl (OtherError (lit "ValueError") (lit "no parts"));
                          finish_reason := None |}
                       (OtherError (lit "ValueError") (lit "no parts"))
                       ltac:(computed) eq_refl eq_refl) eq_refl)
      as (reason & Hrun & _ & Hunknown).
    exists reason. split; [exact Hrun | exact (Hunknown eq_refl)].
  - refine (f_equal snd
              (proj2 (generate_no_text (lit "AIza-key") example_profile
                        (with_generation
                           (inr {| text := inl keyboard_interrupt;
                                   finish_reason := Some (lit "STOP") |})
                           alice_world)
                        {| text := inl keyboard_interrupt;
                           finish_reason := Some (lit "STOP") |}
                        keyboard_interrupt _ eq_refl eq_refl) eq_refl)).
    computed.
Defined.

(** X9. [generate_portfolio] returns exactly when the key is not blank,
    the response has a text, and that text, fences stripped, is not blank;
    what it returns is that stripped text. So a returned page is never
    empty or whitespace only. *)
Theorem generate_returns api_key user_data w html :
  result (generate_portfolio api_key user_data w) = inr html
  ↔ ¬ blank api_key
    ∧ ∃ response raw_text,
        gemini_generate_content w = inr response
        ∧ text response = inr raw_text
        ∧ html = _strip_markdown_fences raw_text
        ∧ ¬ blank html.
Proof.
  split.
  - destruct (decide (blank api_key)) as [Hk|Hk].
    { by rewrite (generate_blank_key _ _ _ Hk). }
    rewrite (generate_run _ _ _ Hk). unfold result. cbn [snd].
    destruct (gemini_generate_content w) as [e|response] eqn:Hresp; [done|].
    destruct (text response) as [e|raw_text] eqn:Htext; [done|].
    destruct (truthy _) eqn:Hnb; [|done].
    intros Hhtml. assert (html = _strip_markdown_fences raw_text) as ->
      by congruence.
    split; [done|]. exists response, raw_text.
    split; [done|]. split; [done|]. split; [done|]. by apply truthy_strip.
  - intros (Hk & response & raw_text & Hresp & Htext & -> & Hnb).
    rewrite (generate_run _ _ _ Hk), Hresp, Htext. unfold result. cbn [snd].
    by rewrite (proj2 (truthy_strip _) Hnb).
Qed.

(** X10. When the text of the response, fences stripped, is empty or
    whitespace only (an empty response, or a fence around nothing),
    [generate_portfolio] raises [ValueError]. *)
Theorem generate_blank_page api_key user_data w response raw_text :
  ¬ blank api_key →
  gemini_generate_content w = inr response →
  text response = inr raw_text →
  blank (_strip_markdown_fences raw_text) →
  generate_portfolio api_key user_data w
  = (generate_calls_of api_key user_data,
     inl (ValueError (lit "Gemini returned an empty HTML response.") None)).
Proof.
  intros Hk Hresp Htext Hb.
  rewrite (generate_run _ _ _ Hk), Hresp, Htext.
  apply strip_blank in Hb. by rewrite Hb.
Qed.

Lemma generate_blank_page_witness :
  result (generate_portfolio (lit "AIza-key") example_profile
            (with_generation
               (inr {| text := inr (lit "```html" ++ nl ++ lit "  " ++ nl ++ lit "```");
                       finish_reason := Some (lit "STOP") |})
               alice_world))
  = inl (ValueError (lit "Gemini returned an empty HTML response.") None).
Proof.
  refine (f_equal snd
            (generate_blank_page (lit "AIza-key") example_profile
               (with_generation
                  (inr {| text := inr (lit "```html" ++ nl ++ lit "  " ++ nl ++ lit "```");
                          finish_reason := Some (lit "STOP") |})
                  alice_world)
               {| text := inr (lit "```html" ++ nl ++ lit "  " ++ nl ++ lit "```");
                  finish_reason := Some (lit "STOP") |}
               (lit "```html" ++ nl ++ lit "  " ++ nl ++ lit "```")
               _ eq_refl eq_refl _)); computed.
Defined.

End GenerateMore.

(** ** [deploy_to_github], continued *)

Section DeployMore.

Implicit Types (w : world) (github_token html_code username repo_name url : str).

Lemma unique_repo_name_trace_cases w prefix names_trace repo_name :
  _unique_repo_name prefix w = (names_trace, inr repo_name) →
  names_trace = [GetRepos] ∨ names_trace = [GetRepos; TimeNow].
Proof.
  destruct (github_repos w) as [e|repos] eqn:Hrepos.
  - by rewrite (unique_repo_name_listing_fails _ _ _ Hrepos).
  - rewrite (unique_repo_name_run _ _ _ Hrepos).
    destruct (probe _ _ _ _); intros [= <- _]; auto.
Qed.

Lemma repo_creations_file_writes (calls : list call) :
  repo_creations (file_writes calls) = [].
Proof.
  induction calls as [|c calls IH]; [done|].
  destruct c; cbn; try done; by rewrite IH.
Qed.

(** The calls of the upload step: the fetch, then one or two writes. *)
Lemma push_file_calls file_path content commit_message branch w :
  ∃ writes,
    trace (_push_file file_path content commit_message branch w)
    = GetContents file_path branch :: writes
    ∧ file_writes writes = writes
    ∧ pages_calls writes = [].
Proof.
  rewrite push_file_run. cbv zeta.
  destruct (github_get_contents w) as [e|existing].
  - destruct (is_GithubException e && (exn_status e =? 404));
      eexists; (split; [reflexivity|done]).
  - destruct (github_update_file w) as [e|[]];
      [destruct (is_GithubException e && (exn_status e =? 404))|];
      eexists; (split; [reflexivity|done]).
Qed.

(** Every run that passes the two guards starts with the identity fetch,
    made with the trimmed token. *)
Lemma deploy_first_call github_token html_code w :
  ¬ blank github_token → ¬ blank html_code →
  ∃ later,
    trace (deploy_to_github github_token html_code w)
    = GetUserLogin (strip github_token) :: later.
Proof.
  intros Ht Hh.
  destruct (github_login w) as [e|username] eqn:Hlogin.
  { rewrite (deploy_login_fails _ _ _ _ Ht Hh Hlogin). by eexists. }
  destruct (_unique_repo_name REPO_NAME_PREFIX w)
    as [names_trace [e|repo_name]] eqn:Hname.
  { rewrite (deploy_resolution_fails _ _ _ _ _ _ Ht Hh Hlogin Hname).
    by eexists. }
  destruct (github_create_repo w) as [e|repo] eqn:Hcreate.
  { destruct (deploy_create_fails _ _ _ _ _ _ _ Ht Hh Hlogin Hname Hcreate)
      as (e' & -> & _). by eexists. }
  rewrite (deploy_after_create _ _ _ _ _ _ _ Ht Hh Hlogin Hname Hcreate).
  cbv zeta. destruct (push_index html_code w) as [upload [e|[]]];
    [by eexists|].
  destruct (github_enable_pages w) as [e|[]];
    [destruct (is_GithubException e)|]; by eexists.
Qed.

(** A returning run, taken apart. *)
Lemma deploy_returns_inv github_token html_code w url :
  result (deploy_to_github github_token html_code w) = inr url →
  ∃ username names_trace repo_name repo upload warning,
    github_login w = inr username
    ∧ _unique_repo_name REPO_NAME_PREFIX w = (names_trace, inr repo_name)
    ∧ github_create_repo w = inr repo
    ∧ push_index html_code w = (upload, inr tt)
    ∧ url = pages_url_of username repo_name
    ∧ trace (deploy_to_github github_token html_code w)
      = (GetUserLogin (strip github_token)
           :: names_trace ++ [create_repo_call username repo_name; Sleep 2])
          ++ upload ++ enable_pages_call :: warning
    ∧ (warning = []
       ∨ ∃ e, github_enable_pages w = inl e
              ∧ warning = [pages_warning e repo username repo_name]).
Proof.
  destruct (decide (blank github_token)) as [Ht|Ht].
  { by rewrite (deploy_blank_token _ _ _ Ht). }
  destruct (decide (blank html_code)) as [Hh|Hh].
  { by rewrite (deploy_blank_html _ _ _ Ht Hh). }
  destruct (github_login w) as [e|username] eqn:Hlogin.
  { by rewrite (deploy_login_fails _ _ _ _ Ht Hh Hlogin). }
  destruct (_unique_repo_name REPO_NAME_PREFIX w)
    as [names_trace [e|repo_name]] eqn:Hname.
  { by rewrite (deploy_resolution_fails _ _ _ _ _ _ Ht Hh Hlogin Hname). }
  destruct (github_create_repo w) as [e|repo] eqn:Hcreate.
  { destruct (deploy_create_fails _ _ _ _ _ _ _ Ht Hh Hlogin Hname Hcreate)
      as (e' & -> & _). done. }
  rewrite (deploy_after_create _ _ _ _ _ _ _ Ht Hh Hlogin Hname Hcreate).
  cbv zeta. intros Hurl. exists username, names_trace, repo_name, repo.
  destruct (push_index html_code w) as [upload [e|[]]]; [done|].
  exists upload.
  destruct (github_enable_pages w) as [e|[]] eqn:Hpages;
    [destruct (is_GithubException e); [|done]|].
  - exists [pages_warning e repo username repo_name].
    repeat (split; [done || (unfold result in Hurl; cbn [snd] in Hurl; congruence)|]).
    right. by exists e.
  - exists [].
    repeat (split; [done || (unfold result in Hurl; cbn [snd] in Hurl; congruence)|]).
    by left.
Qed.

(** X11. When the repository listing raises, the exception leaves
    [deploy_to_github] as it is, a [GithubException] included (it is not
    turned into a [RuntimeError]), and nothing is created. *)
Theorem deploy_listing_failure github_token html_code w username e :
  ¬ blank github_token → ¬ blank html_code →
  github_login w = inr username →
  github_repos w = inl e →
  deploy_to_github github_token html_code w
  = ([GetUserLogin (strip github_token); GetRepos], inl e).
Proof.
  intros Ht Hh Hlogin Hrepos.
  apply (deploy_resolution_fails _ _ _ _ _ _ Ht Hh Hlogin).
  by apply unique_repo_name_listing_fails.
Qed.

Lemma deploy_listing_failure_witness :
  result (deploy_to_github (lit "ghp_token") (lit "<html></html>")
            (with_repos (inl forbidden) alice_world))
  = inl forbidden.
Proof.
  refine (f_equal snd
            (deploy_listing_failure (lit "ghp_token") (lit "<html></html>")
               (with_repos (inl forbidden) alice_world) (lit "alice") forbidden
               _ _ eq_refl eq_refl)); computed.
Defined.

(** X12. When creating the repository raises a [GithubException],
    [deploy_to_github] raises [RuntimeError] with it as cause, and the
    creation is the last call made (no wait, no upload). With status 422
    the message names the repository and gives [exc.data]; with any other
    status it gives the text of the exception. *)
Theorem deploy_create_failure github_token html_code w username names_trace
    repo_name e :
  ¬ blank github_token → ¬ blank html_code →
  github_login w = inr username →
  _unique_repo_name REPO_NAME_PREFIX w = (names_trace, inr repo_name) →
  github_create_repo w = inl e →
  is_GithubException e = true →
  ∃ msg,
    deploy_to_github github_token html_code w
    = (GetUserLogin (strip github_token)
         :: names_trace ++ [create_repo_call username repo_name],
       inl (RuntimeError msg (Some e)))
    ∧ (exn_status e = 422 →
       msg = lit "Repository '" ++ repo_name
             ++ lit "' already exists or the name is invalid: " ++ exn_data e)
    ∧ (exn_status e ≠ 422 →
       msg = lit "Failed to create repository: " ++ exn_str e).
Proof.
  intros Ht Hh Hlogin Hname Hcreate Hg. unfold deploy_to_github.
  rewrite (guard_nonblank _ Ht), (guard_nonblank _ Hh).
  cbv beta iota zeta delta [bind try_except perform raise ret].
  rewrite Hlogin, Hname. fold (create_repo_call username repo_name).
  rewrite Hcreate, Hg.
  destruct (exn_status e =? 422) eqn:Hs; rewrite app_nil_r; eexists;
    (split; [reflexivity|]).
  - apply Z.eqb_eq in Hs. split; [done | by intros []].
  - apply Z.eqb_neq in Hs. split; [by intros ? | done].
Qed.

Lemma deploy_create_failure_witness :
  result (deploy_to_github (lit "ghp_token") (lit "<html></html>")
            (with_create_repo (inl unprocessable) alice_world))
  = inl (RuntimeError
           (lit "Repository 'portfolio-builder-3' already exists or the name is invalid: name already exists on this account")
           (Some unprocessable)).
Proof.
  destruct (deploy_create_failure (lit "ghp_token") (lit "<html></html>")
              (with_create_repo (inl unprocessable) alice_world)
              (lit "alice") [GetRepos] (lit "portfolio-builder-3") unprocessable)
    as (msg & Hrun & Hmsg & _).
  - computed.
  - computed.
  - reflexivity.
  - by vm_compute.
  - reflexivity.
  - reflexivity.
  - rewrite Hrun, (Hmsg eq_refl). reflexivity.
Defined.

(** X13. The calls of a returning run, in order: the identity fetch with
    the trimmed token, the listing (and the clock, when the fallback name
    is used), the creation, a wait of 2 seconds, the fetch of [index.html]
    on [main], one update or one create (or an update followed by a
    create), the pages enablement, and the warning when enabling raised. *)
Theorem deploy_call_order github_token html_code w url :
  result (deploy_to_github github_token html_code w) = inr url →
  ∃ username repo_name names_trace writes warning,
    trace (deploy_to_github github_token html_code w)
    = (GetUserLogin (strip github_token) :: names_trace)
        ++ [create_repo_call username repo_name; Sleep 2;
            GetContents (lit "index.html") PAGES_BRANCH]
        ++ writes ++ enable_pages_call :: warning
    ∧ (names_trace = [GetRepos] ∨ names_trace = [GetRepos; TimeNow])
    ∧ (writes = [create_index_call html_code]
       ∨ (∃ sha_, writes = [update_index_call html_code sha_])
       ∨ (∃ sha_, writes = [update_index_call html_code sha_;
                            create_index_call html_code]))
    ∧ (warning = [] ∨ ∃ line, warning = [Print line]).
Proof.
  intros (username & names_trace & repo_name & repo & upload & warning
          & _ & Hname & _ & Hpush & _ & Htrace & Hwarning)%deploy_returns_inv.
  unfold push_index in Hpush. rewrite push_file_run in Hpush. cbv zeta in Hpush.
  assert (∃ writes,
            upload = GetContents (lit "index.html") PAGES_BRANCH :: writes
            ∧ (writes = [create_index_call html_code]
               ∨ (∃ sha_, writes = [update_index_call html_code sha_])
               ∨ (∃ sha_, writes = [update_index_call html_code sha_;
                                    create_index_call html_code])))
    as (writes & -> & Hwrites).
  { destruct (github_get_contents w) as [e|existing].
    - destruct (is_GithubException e && (exn_status e =? 404));
        [|done]. injection Hpush as <- _. eexists. split; [done|]. by left.
    - destruct (github_update_file w) as [e|[]].
      + destruct (is_GithubException e && (exn_status e =? 404)); [|done].
        injection Hpush as <- _. eexists. split; [done|].
        right. right. by eexists.
      + injection Hpush as <-. eexists. split; [done|]. right. left.
        by eexists. }
  exists username, repo_name, names_trace, writes, warning.
  split; [|split; [|split]].
  - rewrite Htrace. cbn [app]. by rewrite <- !app_assoc.
  - by eapply unique_repo_name_trace_cases.
  - done.
  - destruct Hwarning as [->|(e & _ & ->)]; [by left|]. right. by eexists.
Qed.

Lemma deploy_call_order_witness :
  ∃ username repo_name names_trace writes warning,
    trace (deploy_to_github (lit " ghp_token ") (lit "<html></html>") alice_world)
    = (GetUserLogin (strip (lit " ghp_token ")) :: names_trace)
        ++ [create_repo_call username repo_name; Sleep 2;
            GetContents (lit "index.html") PAGES_BRANCH]
        ++ writes ++ enable_pages_call :: warning
    ∧ (names_trace = [GetRepos] ∨ names_trace = [GetRepos; TimeNow])
    ∧ (writes = [create_index_call (lit "<html></html>")]
       ∨ (∃ sha_, writes = [update_index_call (lit "<html></html>") sha_])
       ∨ (∃ sha_, writes = [update_index_call (lit "<html></html>") sha_;
                            create_index_call (lit "<html></html>")]))
    ∧ (warning = [] ∨ ∃ line, warning = [Print line]).
Proof.
  apply (deploy_call_order (lit " ghp_token ") (lit "<html></html>") alice_world
           (lit "https://alice.github.io/portfolio-builder-3/")).
  by vm_compute.
Defined.

(** X14. In a returning run the repository is created once, public and
    auto-initialised, under the resolved name, and its homepage is the
    very URL that is returned. *)
Theorem deploy_homepage_is_result github_token html_code w url :
  result (deploy_to_github github_token html_code w) = inr url →
  ∃ repo_name description,
    result (_unique_repo_name REPO_NAME_PREFIX w) = inr repo_name
    ∧ repo_creations (trace (deploy_to_github github_token html_code w))
      = [CreateRepo repo_name description url false true].
Proof.
  intros (username & names_trace & repo_name & repo & upload & warning
          & _ & Hname & _ & Hpush & -> & Htrace & Hwarning)%deploy_returns_inv.
  exists repo_name. eexists. split; [by rewrite Hname|].
  rewrite Htrace.
  destruct (push_file_calls (lit "index.html") html_code COMMIT_MESSAGE
              PAGES_BRANCH w) as (writes & Hcalls & Hwrites & _).
  fold (push_index html_code) in Hcalls. rewrite Hpush in Hcalls.
  unfold trace in Hcalls. cbn [fst] in Hcalls. subst upload.
  assert (repo_creations writes = []) as Hnone.
  { rewrite <- Hwrites. apply repo_creations_file_writes. }
  unfold repo_creations in *. rewrite !List.filter_app. cbn [List.filter].
  rewrite Hnone.
  destruct (unique_repo_name_trace_cases _ _ _ _ Hname) as [->| ->];
    destruct Hwarning as [->|(e & _ & ->)]; reflexivity.
Qed.

Lemma deploy_homepage_is_result_witness :
  ∃ repo_name description,
    result (_unique_repo_name REPO_NAME_PREFIX alice_world) = inr repo_name
    ∧ repo_creations
        (trace (deploy_to_github (lit "ghp_token") (lit "<html></html>")
                  alice_world))
      = [CreateRepo repo_name description
           (lit "https://alice.github.io/portfolio-builder-3/") false true].
Proof.
  apply deploy_homepage_is_result. by vm_compute.
Defined.

End DeployMore.

Section UploadAndPages.

Implicit Types (w : world) (github_token html_code username : str).

(** X15. The not-found handler of [_push_file] covers the update as well
    as the fetch: when the file is fetched but the update raises a
    [GithubException] with status 404, a create-file call follows the
    update, and its outcome is the outcome of [_push_file]. *)
Theorem push_file_update_not_found file_path content commit_message branch w
    existing e :
  github_get_contents w = inr existing →
  github_update_file w = inl e →
  is_GithubException e = true → exn_status e = 404 →
  _push_file file_path content commit_message branch w
  = ([GetContents file_path branch;
      UpdateFile file_path commit_message content (sha existing) branch;
      CreateFile file_path commit_message content branch],
     github_create_file w).
Proof.
  intros Hget Hupdate Hg Hs. rewrite push_file_run, Hget, Hupdate, Hg, Hs.
  reflexivity.
Qed.

Lemma push_file_update_not_found_witness :
  _push_file (lit "index.html") (lit "<html></html>") COMMIT_MESSAGE PAGES_BRANCH
    (with_update_file (inl not_found)
       (with_contents (inr {| sha := lit "3b18e5" |}) alice_world))
  = ([GetContents (lit "index.html") PAGES_BRANCH;
      UpdateFile (lit "index.html") COMMIT_MESSAGE (lit "<html></html>")
        (lit "3b18e5") PAGES_BRANCH;
      CreateFile (lit "index.html") COMMIT_MESSAGE (lit "<html></html>")
        PAGES_BRANCH],
     inr tt).
Proof.
  exact (push_file_update_not_found (lit "index.html") (lit "<html></html>")
           COMMIT_MESSAGE PAGES_BRANCH
           (with_update_file (inl not_found)
              (with_contents (inr {| sha := lit "3b18e5" |}) alice_world))
           {| sha := lit "3b18e5" |} not_found eq_refl eq_refl eq_refl eq_refl).
Defined.

(** X16. In a run that reaches the upload step, enabling pages is
    attempted exactly when the upload succeeded, and then once. When the
    upload raises, pages are not touched and the exception is raised as
    [RuntimeError] if it is a [GithubException], as it is otherwise. *)
Theorem deploy_pages_after_upload github_token html_code w username repos repo :
  ¬ blank github_token → ¬ blank html_code →
  github_login w = inr username →
  github_repos w = inr repos →
  github_create_repo w = inr repo →
  (result (push_index html_code w) = inr tt →
   pages_calls (trace (deploy_to_github github_token html_code w))
   = [enable_pages_call])
  ∧ (∀ e,
       result (push_index html_code w) = inl e →
       pages_calls (trace (deploy_to_github github_token html_code w)) = []
       ∧ result (deploy_to_github github_token html_code w)
         = inl (if is_GithubException e
                then RuntimeError (lit "Failed to push index.html: " ++ exn_str e)
                       (Some e)
                else e)).
Proof.
  intros Ht Hh Hlogin Hrepos Hcreate.
  destruct (unique_repo_name_calls w REPO_NAME_PREFIX repos Hrepos)
    as (names_trace & repo_name & Hname & _).
  rewrite (deploy_after_create _ _ _ _ _ _ _ Ht Hh Hlogin Hname Hcreate).
  cbv zeta.
  destruct (push_file_calls (lit "index.html") html_code COMMIT_MESSAGE
              PAGES_BRANCH w) as (writes & Hcalls & _ & Hquiet).
  fold (push_index html_code) in Hcalls.
  destruct (push_index html_code w) as [upload outcome_].
  unfold trace in Hcalls. cbn [fst] in Hcalls. subst upload.
  assert (∀ calls,
            pages_calls
              ((GetUserLogin (strip github_token)
                  :: names_trace ++ [create_repo_call username repo_name; Sleep 2])
                 ++ (GetContents (lit "index.html") PAGES_BRANCH :: writes)
                 ++ calls)
            = pages_calls calls) as Hbefore.
  { intros calls. unfold pages_calls in *.
    rewrite !List.filter_app. cbn [List.filter is_enable_pages app].
    rewrite Hquiet.
    by destruct (unique_repo_name_trace_cases _ _ _ _ Hname) as [->| ->]. }
  unfold result. cbn [snd]. split.
  - intros ->. destruct (github_enable_pages w) as [e|[]];
      [destruct (is_GithubException e)|]; unfold trace; cbn [fst];
      by rewrite Hbefore.
  - intros e ->. unfold trace, wrapped_as_runtime. cbn [fst snd].
    split; [|done]. rewrite <- (app_nil_r (_ :: writes)). by rewrite Hbefore.
Qed.

Lemma deploy_pages_after_upload_witness :
  pages_calls
    (trace (deploy_to_github (lit "ghp_token") (lit "<html></html>") alice_world))
  = [enable_pages_call]
  ∧ pages_calls
      (trace (deploy_to_github (lit "ghp_token") (lit "<html></html>")
                (with_create_file (inl forbidden) alice_world)))
    = []
  ∧ result (deploy_to_github (lit "ghp_token") (lit "<html></html>")
              (with_create_file (inl forbidden) alice_world))
    = inl (RuntimeError (lit "Failed to push index.html: 403 Forbidden")
             (Some forbidden)).
Proof.
  split.
  - refine (proj1 (deploy_pages_after_upload
                     (lit "ghp_token") (lit "<html></html>") alice_world
                     _ _ _ _ _ eq_refl eq_refl eq_refl) eq_refl); computed.
  - refine (proj2 (deploy_pages_after_upload
                     (lit "ghp_token") (lit "<html></html>")
                     (with_create_file (inl forbidden) alice_world)
                     _ _ _ _ _ eq_refl eq_refl eq_refl) forbidden eq_refl);
      computed.
Defined.

(** X17. When the two inputs are not blank, the listing succeeds and every
    failure of the other calls is a [GithubException], [deploy_to_github]
    either returns or raises [PermissionError] or [RuntimeError]. *)
Theorem deploy_error_classes github_token html_code w repos :
  ¬ blank github_token → ¬ blank html_code →
  github_repos w = inr repos →
  github_failure (github_login w) →
  github_failure (github_create_repo w) →
  github_failure (github_get_contents w) →
  github_failure (github_update_file w) →
  github_failure (github_create_file w) →
  github_failure (github_enable_pages w) →
  match result (deploy_to_github github_token html_code w) with
  | inr _ => True
  | inl e => is_PermissionError e || is_RuntimeError e = true
  end.
Proof.
  intros Ht Hh Hrepos Hlogin Hcreate Hget Hupdate Hcreatef Hpages.
  destruct (github_login w) as [e|username] eqn:Elogin.
  { rewrite (deploy_login_fails _ _ _ _ Ht Hh Elogin). unfold result. cbn [snd].
    cbn in Hlogin. rewrite Hlogin. by destruct (_ =? 401). }
  destruct (unique_repo_name_calls w REPO_NAME_PREFIX repos Hrepos)
    as (names_trace & repo_name & Hname & _).
  destruct (github_create_repo w) as [e|repo] eqn:Ecreate.
  { destruct (deploy_create_fails _ _ _ _ _ _ _ Ht Hh Elogin Hname Ecreate)
      as (e' & -> & Hwrapped & _). unfold result. cbn [snd].
    cbn in Hcreate. rewrite (Hwrapped Hcreate). apply orb_true_r. }
  rewrite (deploy_after_create _ _ _ _ _ _ _ Ht Hh Elogin Hname Ecreate).
  cbv zeta.
  assert (github_failure (result (push_index html_code w))) as Hpush.
  { unfold push_index. rewrite push_file_run. cbv zeta.
    destruct (github_get_contents w) as [e|existing].
    - cbn in Hget. rewrite Hget. cbn [andb].
      destruct (_ =? 404); [done|]. exact Hget.
    - destruct (github_update_file w) as [e|[]]; [|done].
      cbn in Hupdate. rewrite Hupdate. cbn [andb].
      destruct (_ =? 404); [done|]. exact Hupdate. }
  destruct (push_index html_code w) as [upload [e|[]]].
  - unfold result in *. cbn [snd] in *. unfold wrapped_as_runtime.
    cbn in Hpush. by rewrite Hpush.
  - destruct (github_enable_pages w) as [e|[]]; [|done].
    cbn in Hpages. by rewrite Hpages.
Qed.

Lemma deploy_error_classes_witness :
  match result (deploy_to_github (lit "ghp_token") (lit "<html></html>")
                  (with_login (inl unauthorized) alice_world)) with
  | inr _ => True
  | inl e => is_PermissionError e || is_RuntimeError e = true
  end.
Proof.
  refine (deploy_error_classes (lit "ghp_token") (lit "<html></html>")
            (with_login (inl unauthorized) alice_world) _ _ _ eq_refl
            _ _ _ _ _ _); try computed; vm_compute; exact I || reflexivity.
Defined.

End UploadAndPages.

(** ** From generation to deployment *)

Section Flow.

Implicit Types (w : world) (api_key github_token html url : str)
  (user_data : gmap str str).

Lemma generate_page_not_blank api_key user_data w html :
  result (generate_portfolio api_key user_data w) = inr html → ¬ blank html.
Proof.
  destruct (decide (blank api_key)) as [Hk|Hk].
  { by rewrite (generate_blank_key _ _ _ Hk). }
  rewrite (generate_run _ _ _ Hk). unfold result. cbn [snd].
  destruct (gemini_generate_content w) as [e|response]; [done|].
  destruct (text response) as [e|raw_text]; [done|].
  destruct (truthy _) eqn:Hnb; [|done].
  intros Hhtml. assert (html = _strip_markdown_fences raw_text) as ->
    by congruence.
  by apply truthy_strip.
Qed.

(** X18. A page returned by [generate_portfolio] is never rejected by the
    guards of [deploy_to_github]: with a token that is not blank, the
    deployment of such a page always reaches the identity fetch. *)
Theorem generated_page_is_deployable api_key user_data w html github_token
    (w' : world) :
  result (generate_portfolio api_key user_data w) = inr html →
  ¬ blank github_token →
  ∃ later,
    trace (deploy_to_github github_token html w')
    = GetUserLogin (strip github_token) :: later.
Proof.
  intros Hhtml Ht. apply deploy_first_call; [done|].
  by eapply generate_page_not_blank.
Qed.

Lemma generated_page_is_deployable_witness :
  ∃ later,
    trace (deploy_to_github (lit "ghp_token") (lit "<html></html>")
             (with_login (inl unauthorized) alice_world))
    = GetUserLogin (strip (lit "ghp_token")) :: later.
Proof.
  apply (generated_page_is_deployable (lit "AIza-key") example_profile
           alice_world (lit "<html></html>") (lit "ghp_token")
           (with_login (inl unauthorized) alice_world)).
  - by vm_compute.
  - computed.
Defined.

Lemma truthy_nonempty (s : str) : s ≠ [] → negb (truthy s) = false.
Proof. by destruct s. Qed.

(** The handler once the three required fields are filled in. *)
Lemma build_and_deploy_run llm_api_key github_token user_bio user_links
    color_theme layout_style aesthetic_notes :
  llm_api_key ≠ [] → github_token ≠ [] → user_bio ≠ [] →
  build_and_deploy llm_api_key github_token user_bio user_links color_theme
    layout_style aesthetic_notes
  = (let! html :=
       generate_portfolio llm_api_key
         (form_data user_bio user_links color_theme layout_style aesthetic_notes) in
     let! pages_url := deploy_to_github github_token html in
     ret (st_success
            ([127881%N] ++ lit " Live at [" ++ pages_url ++ lit "]("
             ++ pages_url ++ lit ")"))).
Proof.
  intros Hk Ht Hb. unfold build_and_deploy.
  by rewrite (truthy_nonempty _ Hk), (truthy_nonempty _ Ht),
    (truthy_nonempty _ Hb).
Qed.

(** X19. When one of the three required fields (key, token, bio) is
    empty, the handler makes no call (neither Gemini nor GitHub is
    contacted) and renders an error whose text lists, separated by a comma
    and a space and in the order [LLM API Key], [GitHub Token], [Bio],
    the labels of exactly the fields that are empty. *)
Theorem form_validation llm_api_key github_token user_bio user_links
    color_theme layout_style aesthetic_notes w :
  llm_api_key = [] ∨ github_token = [] ∨ user_bio = [] →
  ∃ labels,
    build_and_deploy llm_api_key github_token user_bio user_links color_theme
      layout_style aesthetic_notes w
    = ([], inr (st_error
                  (lit "Please fill in the following required fields: **"
                   ++ join (lit ", ") labels ++ lit "**")))
    ∧ labels `sublist_of` [lit "LLM API Key"; lit "GitHub Token"; lit "Bio"]
    ∧ (lit "LLM API Key" ∈ labels ↔ llm_api_key = [])
    ∧ (lit "GitHub Token" ∈ labels ↔ github_token = [])
    ∧ (lit "Bio" ∈ labels ↔ user_bio = []).
Proof.
  intros Hempty. unfold build_and_deploy.
  destruct llm_api_key, github_token, user_bio;
    cbn [truthy negb app];
    try (match goal with
         | |- context [join (lit ", ") ?missing] => exists missing
         end;
         split; [reflexivity|];
         split;
         [repeat first [apply sublist_nil | apply sublist_skip
                       | apply sublist_cons]|];
         split; [computed|]; split; computed).
  by destruct Hempty as [|[|]].
Qed.

Lemma form_validation_witness :
  ∃ labels,
    build_and_deploy (lit "AIza-key") [] [] [] (lit "Cyberpunk") (lit "Timeline")
      [] alice_world
    = ([], inr (st_error
                  (lit "Please fill in the following required fields: **"
                   ++ join (lit ", ") labels ++ lit "**")))
    ∧ labels `sublist_of` [lit "LLM API Key"; lit "GitHub Token"; lit "Bio"]
    ∧ (lit "LLM API Key" ∈ labels ↔ lit "AIza-key" = [])
    ∧ (lit "GitHub Token" ∈ labels ↔ ([] : str) = [])
    ∧ (lit "Bio" ∈ labels ↔ ([] : str) = []).
Proof.
  apply form_validation. right. left. reflexivity.
Defined.

(** X20. The validation of the form tests for emptiness only, the guards
    of the backend for blankness. A key of spaces passes the form and makes
    the handler raise [ValueError] with no call made. A token of spaces
    passes the form too: the page is generated first, and only then does
    the handler raise [ValueError], with the call to Gemini already made. *)
Theorem form_accepts_blank_secrets llm_api_key github_token user_bio user_links
    color_theme layout_style aesthetic_notes w :
  llm_api_key ≠ [] → github_token ≠ [] → user_bio ≠ [] →
  (blank llm_api_key →
   build_and_deploy llm_api_key github_token user_bio user_links color_theme
     layout_style aesthetic_notes w
   = ([], inl (ValueError (lit "Gemini API key must not be empty.") None)))
  ∧ (∀ html,
       blank github_token →
       result (generate_portfolio llm_api_key
                 (form_data user_bio user_links color_theme layout_style
                    aesthetic_notes) w) = inr html →
       build_and_deploy llm_api_key github_token user_bio user_links
         color_theme layout_style aesthetic_notes w
       = (generate_calls_of llm_api_key
            (form_data user_bio user_links color_theme layout_style
               aesthetic_notes),
          inl (ValueError (lit "GitHub token must not be empty.") None))).
Proof.
  intros Hk Ht Hb. rewrite (build_and_deploy_run _ _ _ _ _ _ _ Hk Ht Hb).
  unfold bind. split.
  - intros Hblank. by rewrite (generate_blank_key _ _ _ Hblank).
  - intros html Hblank Hhtml.
    assert (¬ blank llm_api_key) as Hkey.
    { intros Hblank'. by rewrite (generate_blank_key _ _ _ Hblank') in Hhtml. }
    rewrite (generate_run _ _ _ Hkey) in *. unfold result in Hhtml.
    cbn [snd] in Hhtml. rewrite Hhtml.
    rewrite (deploy_blank_token _ _ _ Hblank). by rewrite app_nil_r.
Qed.

Lemma form_accepts_blank_secrets_witness :
  build_and_deploy (lit "  ") (lit "ghp_token") (lit "Software engineer.") []
    (lit "Cyberpunk") (lit "Timeline") [] alice_world
  = ([], inl (ValueError (lit "Gemini API key must not be empty.") None))
  ∧ result (build_and_deploy (lit "AIza-key") (lit "  ")
              (lit "Software engineer.") [] (lit "Cyberpunk") (lit "Timeline")
              [] alice_world)
    = inl (ValueError (lit "GitHub token must not be empty.") None).
Proof.
  split.
  - apply (proj1 (form_accepts_blank_secrets (lit "  ") (lit "ghp_token")
                    (lit "Software engineer.") [] (lit "Cyberpunk")
                    (lit "Timeline") [] alice_world
                    ltac:(discriminate) ltac:(discriminate) ltac:(discriminate))).
    computed.
  - refine (f_equal snd
              (proj2 (form_accepts_blank_secrets (lit "AIza-key") (lit "  ")
                        (lit "Software engineer.") [] (lit "Cyberpunk")
                        (lit "Timeline") [] alice_world
                        ltac:(discriminate) ltac:(discriminate)
                        ltac:(discriminate))
                 (lit "<html></html>") _ _)).
    + computed.
    + by vm_compute.
Defined.

(** X21. With the three required fields filled in, the handler runs the
    generation and then the deployment of the generated page, and catches
    nothing: an exception of the generation leaves the handler with no
    call to GitHub made, an exception of the deployment leaves it too, and
    when both return the handler renders the success message with the
    returned URL as link text and target. *)
Theorem build_and_deploy_flow llm_api_key github_token user_bio user_links
    color_theme layout_style aesthetic_notes w :
  llm_api_key ≠ [] → github_token ≠ [] → user_bio ≠ [] →
  let generation :=
    generate_portfolio llm_api_key
      (form_data user_bio user_links color_theme layout_style aesthetic_notes) w in
  let run :=
    build_and_deploy llm_api_key github_token user_bio user_links color_theme
      layout_style aesthetic_notes w in
  (∀ e, result generation = inl e → run = (trace generation, inl e))
  ∧ (∀ html e,
       result generation = inr html →
       result (deploy_to_github github_token html w) = inl e →
       run = (trace generation ++ trace (deploy_to_github github_token html w),
              inl e))
  ∧ (∀ html url,
       result generation = inr html →
       result (deploy_to_github github_token html w) = inr url →
       run = (trace generation ++ trace (deploy_to_github github_token html w),
              inr (st_success
                     ([127881%N] ++ lit " Live at [" ++ url ++ lit "]("
                      ++ url ++ lit ")")))).
Proof.
  intros Hk Ht Hb generation run. subst generation run.
  rewrite (build_and_deploy_run _ _ _ _ _ _ _ Hk Ht Hb).
  unfold bind, ret, trace, result.
  destruct (generate_portfolio _ _ w) as [calls [e0|html0]]; cbn [fst snd].
  - split; [|split].
    + intros e He. congruence.
    + intros html e He. congruence.
    + intros html url He. congruence.
  - split; [|split].
    + intros e He. congruence.
    + intros html e Hhtml Hdeploy. assert (html0 = html) as -> by congruence.
      destruct (deploy_to_github github_token html w) as [calls' [e'|url]];
        cbn [fst snd] in *; [|congruence].
      by assert (e' = e) as -> by congruence.
    + intros html url Hhtml Hdeploy. assert (html0 = html) as -> by congruence.
      destruct (deploy_to_github github_token html w) as [calls' [e'|url']];
        cbn [fst snd] in *; [congruence|].
      assert (url' = url) as -> by congruence. by rewrite app_nil_r.
Qed.

Lemma build_and_deploy_flow_witness :
  result (build_and_deploy (lit "AIza-key") (lit "ghp_token")
            (lit "Software engineer.") example_links (lit "Cyberpunk")
            (lit "Timeline") [] alice_world)
  = inr (st_success
           ([127881%N]
            ++ lit " Live at [https://alice.github.io/portfolio-builder-3/](https://alice.github.io/portfolio-builder-3/)")).
Proof.
  refine (f_equal snd
            (proj2 (proj2 (build_and_deploy_flow (lit "AIza-key") (lit "ghp_token")
                             (lit "Software engineer.") example_links
                             (lit "Cyberpunk") (lit "Timeline") [] alice_world
                             ltac:(discriminate) ltac:(discriminate)
                             ltac:(discriminate)))
               (lit "<html></html>")
               (lit "https://alice.github.io/portfolio-builder-3/") _ _));
    by vm_compute.
Defined.

End Flow.

(** ** The prompt, continued *)

Section PromptMore.

Implicit Types (user_data : gmap str str) (key value s cur : str).

(** A blank text has blank lines only. *)
Lemma splitlines_from_blank s : ∀ cur,
  blank cur → blank s → Forall blank (splitlines_from cur s).
Proof.
  induction s as [s IH] using (induction_ltof1 _ (@List.length char)).
  unfold ltof in IH. intros cur Hcur Hs.
  destruct s as [|c s]; cbn [splitlines_from].
  - destruct cur; [constructor | constructor; [exact Hcur | constructor]].
  - apply Forall_cons in Hs as [Hc Hs].
    destruct (is_linebreak c).
    + constructor; [done|]. destruct (c =? 13)%N.
      * destruct s as [|d s].
        -- apply IH; [cbn; lia | constructor | done].
        -- apply Forall_cons in Hs as [Hd Hs'].
           destruct (d =? 10)%N; apply IH; try (cbn; lia); try constructor;
             done.
      * apply IH; [cbn; lia | constructor | done].
    + apply IH; [cbn; lia | | done]. apply blank_app. split; [done|].
      by repeat constructor.
Qed.

Lemma no_link_lines (lines : list str) :
  Forall blank lines →
  filter (λ url, truthy (strip url) = true) lines = [].
Proof.
  induction 1 as [|line lines Hline _ IH]; [done|].
  rewrite filter_cons. destruct (decide _) as [Hnb|]; [|done].
  by apply truthy_strip in Hnb.
Qed.

Lemma get_insert_eq user_data key value fallback :
  get (<[key := value]> user_data) key fallback = value.
Proof. unfold get. by rewrite lookup_insert_eq. Qed.

Lemma get_insert_ne user_data key key' value fallback :
  key ≠ key' →
  get (<[key := value]> user_data) key' fallback = get user_data key' fallback.
Proof. intros Hne. unfold get. by rewrite lookup_insert_ne. Qed.

Lemma get_delete_eq user_data key fallback :
  get (delete key user_data) key fallback = fallback.
Proof. unfold get. by rewrite lookup_delete_eq. Qed.

Lemma get_delete_ne user_data key key' fallback :
  key ≠ key' →
  get (delete key user_data) key' fallback = get user_data key' fallback.
Proof. intros Hne. unfold get. by rewrite lookup_delete_ne. Qed.

(** X22. A [bio], [links] or [aesthetic_notes] field that is present but
    empty or whitespace only gives the same prompt as the field being
    missing: an empty bio, the [(none provided)] marker, the [(none)]
    marker. *)
Theorem blank_field_like_missing user_data key value :
  key ∈ [lit "bio"; lit "links"; lit "aesthetic_notes"] →
  blank value →
  user_prompt (<[key := value]> user_data) = user_prompt (delete key user_data).
Proof.
  intros Hkey Hblank. unfold user_prompt, links_formatted.
  assert (strip value = []) as Hstrip by by apply strip_blank.
  assert (filter (λ url, truthy (strip url) = true) (splitlines value) = [])
    as Hlines.
  { apply no_link_lines, splitlines_from_blank; [constructor | done]. }
  repeat (apply elem_of_cons in Hkey as [->|Hkey]);
    [| | |by apply elem_of_nil in Hkey];
    rewrite ?get_insert_eq, ?get_delete_eq;
    rewrite ?get_insert_ne, ?get_delete_ne by (intros [=]);
    by rewrite ?Hstrip, ?Hlines.
Qed.

Lemma blank_field_like_missing_witness :
  user_prompt (<[lit "aesthetic_notes" := lit "  " ++ nl]> example_profile)
  = user_prompt (delete (lit "aesthetic_notes") example_profile)
  ∧ user_prompt (<[lit "links" := nl ++ lit " " ++ nl]> example_profile)
    = user_prompt (delete (lit "links") example_profile).
Proof.
  split.
  - apply blank_field_like_missing; computed.
  - apply blank_field_like_missing; computed.
Defined.

(** X23. The prompt the handler of [app.py] sends has the five form values
    at their five places: the trimmed bio, the links block of the links
    field, the chosen theme and layout as they are, and the trimmed notes
    or [(none)]. All five keys being present, no default of
    [generate_portfolio] is used, an empty theme or layout included. *)
Theorem form_prompt user_bio user_links color_theme layout_style
    aesthetic_notes :
  user_prompt
    (form_data user_bio user_links color_theme layout_style aesthetic_notes)
  = prompt_template (strip user_bio)
      (or_else
         (join nl
            (map bullet
               (filter (λ line, ¬ blank line) (splitlines user_links))))
         (lit "  (none provided)"))
      color_theme layout_style
      (or_else (strip aesthetic_notes) (lit "(none)")).
Proof.
  rewrite user_prompt_template, links_formatted_join.
  unfold link_lines, form_data.
  rewrite ?get_insert_eq;
    repeat (rewrite get_insert_ne by (intros [=]); rewrite ?get_insert_eq).
  reflexivity.
Qed.

End PromptMore.
